(** * PHARS dashboard: a shallow embedding of [app.py]

    The dashboard is one Streamlit script that is re-run from top to bottom on
    every user interaction.  One run ("pass") is modelled as a computation in a
    small writer/exception monad: it produces the list of calls made to the
    Streamlit API and to the HTTP API, in order, and ends by running off the
    end of the script, by [st.stop()], or by an uncaught exception.

    Text is held as [string], the UTF-8 bytes of the Python [str]. *)

From Stdlib Require Import List String Ascii Bool Arith ZArith QArith Lia.
From Stdlib Require Import DecimalString Permutation Sorted.
Import ListNotations.

Local Open Scope string_scope.
Local Open Scope Z_scope.

(* ------------------------------------------------------------------ *)
(** ** Python values used by the script *)

(** f-string rendering of an [int]. *)
Definition str_of_Z (z : Z) : string := NilZero.string_of_int (Z.to_int z).
Definition str_of_nat (n : nat) : string := str_of_Z (Z.of_nat n).

(** [",".join(...)] and friends. *)
Fixpoint join (sep : string) (l : list string) : string :=
  match l with
  | [] => ""
  | [s] => s
  | s :: rest => s ++ sep ++ join sep rest
  end.

(** [repr] of a list of plain identifiers, as in [f"{missing}"]: the script
    only formats sublists of [["date", "location"]], whose [repr] needs no
    escaping. *)
Definition repr_list (l : list string) : string :=
  "[" ++ join ", " (map (fun s => "'" ++ s ++ "'") l) ++ "]".

(** [x in l] for a list of strings. *)
Definition mem (x : string) (l : list string) : bool :=
  existsb (String.eqb x) l.

(** [l.index(x)]; [None] is Python's [ValueError]. *)
Fixpoint index_of (x : string) (l : list string) : option nat :=
  match l with
  | [] => None
  | y :: rest =>
      if String.eqb y x then Some 0%nat
      else option_map S (index_of x rest)
  end.

(** [d.get(k)] on a dict kept in insertion order. *)
Fixpoint dict_get {V : Type} (k : string) (d : list (string * V)) : option V :=
  match d with
  | [] => None
  | (k', v) :: rest => if String.eqb k' k then Some v else dict_get k rest
  end.

(** [s.rstrip("/")]. *)
Fixpoint rstrip_slash (s : string) : string :=
  match s with
  | EmptyString => EmptyString
  | String c rest =>
      match rstrip_slash rest with
      | EmptyString => if Ascii.eqb c "/" then EmptyString else String c EmptyString
      | r => String c r
      end
  end.

(** *** [datetime.date] *)

Record date := mkdate { year : Z; month : Z; day : Z }.

(** Comparison of dates is comparison of the triples (year, month, day). *)
Definition date_compare (a b : date) : comparison :=
  match year a ?= year b with
  | Eq => match month a ?= month b with
          | Eq => day a ?= day b
          | c => c
          end
  | c => c
  end.

Definition date_gtb (a b : date) : bool :=
  match date_compare a b with Gt => true | _ => false end.

Definition is_leap (y : Z) : bool :=
  (y mod 4 =? 0) && (negb (y mod 100 =? 0) || (y mod 400 =? 0)).

Definition days_before_year (y : Z) : Z :=
  let p := y - 1 in p * 365 + p / 4 - p / 100 + p / 400.

Definition days_before_month (y m : Z) : Z :=
  nth (Z.to_nat m) [0; 0; 31; 59; 90; 120; 151; 181; 212; 243; 273; 304; 334] 0
  + (if (2 <? m) && is_leap y then 1 else 0).

(** [d.toordinal()]: 1 for 0001-01-01. *)
Definition toordinal (d : date) : Z :=
  days_before_year (year d) + days_before_month (year d) (month d) + day d.

(** [(a - b).days]. *)
Definition days_between (a b : date) : Z := toordinal a - toordinal b.

Definition zero_pad (width : nat) (z : Z) : string :=
  let s := str_of_Z z in
  String.concat "" (repeat "0" (width - String.length s)) ++ s.

(** [str(d)], i.e. [d.isoformat()]: YYYY-MM-DD. *)
Definition isoformat (d : date) : string :=
  zero_pad 4 (year d) ++ "-" ++ zero_pad 2 (month d) ++ "-" ++ zero_pad 2 (day d).

(** [d.strftime("%Y-%m-%d")]; the same text as [isoformat] for the four-digit
    years the date widget hands out. *)
Definition strftime_ymd (d : date) : string := isoformat d.

(** *** [pandas.Timestamp]: a calendar date and the nanoseconds elapsed in it *)

Record Timestamp := mkts { ts_date : date; ts_nanos : Z }.

Definition ts_compare (a b : Timestamp) : comparison :=
  match date_compare (ts_date a) (ts_date b) with
  | Eq => ts_nanos a ?= ts_nanos b
  | c => c
  end.

Definition ts_leb (a b : Timestamp) : bool :=
  match ts_compare a b with Gt => false | _ => true end.

(** *** Scalars: what a JSON field or a frame cell can hold *)

Inductive cell :=
| NA                      (* None / NaN / NaT *)
| Bool (b : bool)
| Num (q : Q)
| Str (s : string)
| Time (t : Timestamp).

Definition isna (c : cell) : bool :=
  match c with NA => true | _ => false end.

(* ------------------------------------------------------------------ *)
(** ** Library behaviour the script relies on

    The script calls pandas and Python built-ins whose results depend on text
    parsing and number formatting.  Those are parameters of the model:

    - [to_datetime_elem col c]: the value [pd.to_datetime(col, errors="coerce")]
      gives to element [c] of column [col]; [None] is [NaT].
    - [to_numeric_elem c]: the value [pd.to_numeric(_, errors="coerce")] gives
      to element [c]; [None] is [NaN].
    - [py_str v]: [str(v)], as used by f-strings.
    - [str_strip s]: [s.strip()].
    - [csv_value v]: the text [DataFrame.to_csv] writes for [v], before
      quoting. *)

Record library := {
  to_datetime_elem : list cell -> cell -> option Timestamp;
  to_numeric_elem : cell -> option Q;
  py_str : cell -> string;
  str_strip : string -> string;
  csv_value : cell -> string
}.

(* ------------------------------------------------------------------ *)
(** ** [pandas.DataFrame], row by row *)

Record DataFrame := mkframe {
  columns : list string;
  rows : list (list cell)
}.

(** One JSON object of the [/cases] payload. *)
Definition record := list (string * cell).

Fixpoint add_keys (cols keys : list string) : list string :=
  match keys with
  | [] => cols
  | k :: rest => add_keys (if mem k cols then cols else (cols ++ [k])%list) rest
  end.

(** Column labels of [pd.DataFrame(list_of_dicts)]: the keys in order of first
    appearance. *)
Definition frame_columns (data : list record) : list string :=
  fold_left (fun cols r => add_keys cols (map fst r)) data [].

Definition cell_of (o : option cell) : cell :=
  match o with Some v => v | None => NA end.

(** [pd.DataFrame(data)]: a key absent from a row leaves a missing value. *)
Definition frame_of_records (data : list record) : DataFrame :=
  let cols := frame_columns data in
  {| columns := cols;
     rows := map (fun r => map (fun c => cell_of (dict_get c r)) cols) data |}.

(** [len(df)]. *)
Definition nrows (df : DataFrame) : nat := List.length (rows df).

(** [col in df.columns]. *)
Definition has_column (name : string) (df : DataFrame) : bool :=
  mem name (columns df).

(** [df.empty]: no rows or no columns. *)
Definition empty (df : DataFrame) : bool :=
  (nrows df =? 0)%nat || (List.length (columns df) =? 0)%nat.

(** [df[name]]; [None] is Python's [KeyError]. *)
Definition column (name : string) (df : DataFrame) : option (list cell) :=
  match index_of name (columns df) with
  | Some i => Some (map (fun r => nth i r NA) (rows df))
  | None => None
  end.

Fixpoint replace_nth (i : nat) (v : cell) (r : list cell) : list cell :=
  match r, i with
  | [], _ => []
  | _ :: rest, O => v :: rest
  | c :: rest, S j => c :: replace_nth j v rest
  end.

(** [df[name] = vals].  pandas refuses a [vals] whose length is not [len(df)];
    the script only assigns a column computed element by element from a column
    of [df], so the lengths agree. *)
Definition set_column (name : string) (vals : list cell) (df : DataFrame)
  : DataFrame :=
  match index_of name (columns df) with
  | Some i =>
      {| columns := columns df;
         rows := map (fun rv => replace_nth i (snd rv) (fst rv))
                     (combine (rows df) vals) |}
  | None =>
      {| columns := (columns df ++ [name])%list;
         rows := map (fun rv => (fst rv ++ [snd rv])%list)
                     (combine (rows df) vals) |}
  end.

(** [df[name].max()] on a datetime column: the greatest timestamp, missing
    values skipped; [None] is [NaT]. *)
Definition ts_max (a b : Timestamp) : Timestamp := if ts_leb a b then b else a.

Fixpoint column_max (col : list cell) : option Timestamp :=
  match col with
  | [] => None
  | Time t :: rest =>
      match column_max rest with
      | Some m => Some (ts_max t m)
      | None => Some t
      end
  | _ :: rest => column_max rest
  end.

(** [int(col.isna().sum())]. *)
Definition count_na (col : list cell) : nat := List.length (filter isna col).

(** *** [df.sort_values(name)]

    Default arguments: ascending, missing values last.  pandas sorts the
    positions of the rows that have a value and appends the positions of the
    rows that have none, in their original order.  The rows that have a value
    are ordered here by a stable insertion sort; by the time the script sorts,
    [fetch_cases] has turned every cell of the date column into a timestamp or
    a missing value. *)

Definition keyed := (Timestamp * list cell)%type.

Fixpoint insert_keyed (x : keyed) (l : list keyed) : list keyed :=
  match l with
  | [] => [x]
  | y :: rest =>
      if ts_leb (fst x) (fst y) then x :: y :: rest
      else y :: insert_keyed x rest
  end.

Definition sort_keyed (l : list keyed) : list keyed :=
  fold_right insert_keyed [] l.

Definition time_at (i : nat) (r : list cell) : option Timestamp :=
  match nth i r NA with Time t => Some t | _ => None end.

Definition with_key (i : nat) (l : list (list cell)) : list keyed :=
  flat_map (fun r => match time_at i r with
                     | Some t => [(t, r)]
                     | None => []
                     end) l.

Definition without_key (i : nat) (l : list (list cell)) : list (list cell) :=
  filter (fun r => match time_at i r with Some _ => false | None => true end) l.

(** [None] is the [KeyError] pandas raises when [name] is not a column. *)
Definition sort_values (name : string) (df : DataFrame) : option DataFrame :=
  match index_of name (columns df) with
  | Some i =>
      Some {| columns := columns df;
              rows := (map snd (sort_keyed (with_key i (rows df)))
                       ++ without_key i (rows df))%list |}
  | None => None
  end.

(** [df.tail(n)]. *)
Definition tail (n : nat) (df : DataFrame) : DataFrame :=
  {| columns := columns df;
     rows := skipn (nrows df - n) (rows df) |}.

(** *** [DataFrame.to_csv(index=False)]

    The writer of Python's [csv] module with pandas' defaults: comma
    delimiter, fields quoted only when they hold a delimiter, a quote or a line
    break, quotes doubled inside quoted fields, a record made of one empty
    field written as two quotes, and a line feed after every record. *)

Definition dquote : string := String "034" EmptyString.
Definition newline : string := String "010" EmptyString.

Definition special (c : ascii) : bool :=
  Ascii.eqb c "," || Ascii.eqb c "034" || Ascii.eqb c "010" || Ascii.eqb c "013".

Fixpoint needs_quote (s : string) : bool :=
  match s with
  | EmptyString => false
  | String c rest => special c || needs_quote rest
  end.

Fixpoint double_quotes (s : string) : string :=
  match s with
  | EmptyString => EmptyString
  | String c rest =>
      if Ascii.eqb c "034" then String c (String c (double_quotes rest))
      else String c (double_quotes rest)
  end.

Definition csv_field (s : string) : string :=
  if needs_quote s then dquote ++ double_quotes s ++ dquote else s.

Definition csv_record (fields : list string) : string :=
  match fields with
  | [EmptyString] => dquote ++ dquote ++ newline
  | _ => join "," (map csv_field fields) ++ newline
  end.

(** [s.encode("utf-8")]: the bytes of the text. *)
Definition encode_utf8 (s : string) : list Byte.byte := list_byte_of_string s.

(* ------------------------------------------------------------------ *)
(** ** Calls, events and the script monad *)

(** Where a Streamlit call draws: the page, the sidebar ([with st.sidebar]),
    a metric column, or one of the tabs and their columns. *)
Inductive container :=
| Main | Sidebar | KpiColumn (i : nat)
| TabOverview | OverviewLeft | OverviewRight | TabReport | TabGovernance.

Inductive text_kind :=
| Title | Caption | Header | Subheader | Markdown | Write | Code
| Info | Success | Warning | Error.

(** A query parameter of a GET request. *)
Inductive pvalue := PNone | PStr (s : string) | PInt (z : Z).

(** The Streamlit calls of the script. *)
Inductive widget :=
| PageConfig (page_title layout : string)
| Text (kind : text_kind) (body : string)
| Divider
| TextInput (label value : string)
| Slider (label : string) (lo hi value : Z)
| Selectbox (label : string) (options : list string) (index : option nat)
| DateInput (label : string) (value : list date) (min_value max_value : date)
| Spinner (text : string)
| Columns (spec : list Z)
| Tabs (labels : list string)
| Metric (label : string) (value : cell)
| PlotlyChart (data : DataFrame) (x y title : string)
| Dataframe (data : DataFrame)
| DownloadButton (label : string) (data : list Byte.byte)
                 (file_name mime : string).

Inductive event :=
| Ui (c : container) (w : widget)
| Request (url : string) (params : list (string * pvalue)) (timeout : Z).

(** Uncaught exceptions that end a pass. *)
Inductive exn :=
| RequestFailed (msg : string)      (* raised inside [api_get] *)
| KeyError (key : string)
| IndexError                        (* [l[0]] on an empty list *)
| NotADate (v : cell)               (* [pd.to_datetime(v).date()] failed *)
| UnpackError (given : nat).        (* [a, b = t] with [len(t) <> 2] *)

Inductive outcome (A : Type) :=
| Done (a : A)
| Stopped                           (* [st.stop()] *)
| Raised (e : exn).

Arguments Done {A} a.
Arguments Stopped {A}.
Arguments Raised {A} e.

Definition script (A : Type) : Type := (list event * outcome A)%type.

Definition ret {A : Type} (a : A) : script A := ([], Done a).

Definition bind {A B : Type} (m : script A) (k : A -> script B) : script B :=
  match snd m with
  | Done a => ((fst m ++ fst (k a))%list, snd (k a))
  | Stopped => (fst m, Stopped)
  | Raised e => (fst m, Raised e)
  end.

Definition emit (c : container) (w : widget) : script unit :=
  ([Ui c w], Done tt).

Definition stop {A : Type} : script A := ([], Stopped).

Definition raise {A : Type} (e : exn) : script A := ([], Raised e).

Notation "x <- m ;; k" := (bind m (fun x => k))
  (at level 61, m at next level, right associativity).
Notation "m ;; k" := (bind m (fun _ => k))
  (at level 61, right associativity).

(** *** The HTTP API *)

Inductive reply (A : Type) :=
| Answer (a : A)
| Failure (msg : string).           (* [requests] or [raise_for_status] raised *)

Arguments Answer {A} a.
Arguments Failure {A} msg.

(** [api_get(url, params, timeout)], with the reply the server gives. *)
Definition api_get {A : Type} (url : string) (params : list (string * pvalue))
  (timeout : Z) (r : reply A) : script A :=
  ([Request url params timeout],
   match r with
   | Answer a => Done a
   | Failure msg => Raised (RequestFailed msg)
   end).

Section Script.

Variable lib : library.

Definition to_csv (df : DataFrame) : string :=
  String.concat ""
    (csv_record (columns df)
     :: map (fun r => csv_record (map (csv_value lib) r)) (rows df)).

(* ------------------------------------------------------------------ *)
(** ** Normalisation of the cases payload *)

(** [pd.to_datetime(col, errors="coerce")]. *)
Definition to_datetime (col : list cell) : list cell :=
  map (fun c => match to_datetime_elem lib col c with
                | Some t => Time t
                | None => NA
                end) col.

(** [pd.to_numeric(col, errors="coerce")]. *)
Definition to_numeric (col : list cell) : list cell :=
  map (fun c => match to_numeric_elem lib c with
                | Some q => Num q
                | None => NA
                end) col.

(** The JSON object answered by [/cases]; [cases_data] is [None] when the
    object has no ["data"] key. *)
Record cases_payload := { cases_data : option (list record) }.

(** [payload.get("data", [])]. *)
Definition payload_rows (p : cases_payload) : list record :=
  match cases_data p with Some d => d | None => [] end.

(** What [fetch_cases] does with the payload (lines 72-75). *)
Definition cases_frame (p : cases_payload) : DataFrame :=
  let df := frame_of_records (payload_rows p) in
  if negb (empty df) && has_column "date" df then
    match column "date" df with
    | Some col => set_column "date" (to_datetime col) df
    | None => df
    end
  else df.

Definition numeric_columns : list string :=
  ["new_cases"; "new_deaths"; "total_cases"; "total_deaths"].

(** The loop of lines 158-160. *)
Definition normalize_numeric (df : DataFrame) : DataFrame :=
  fold_left
    (fun df col =>
       if has_column col df then
         match column col df with
         | Some c => set_column col (to_numeric c) df
         | None => df
         end
       else df)
    numeric_columns df.

(** The two steps together: the frame every later section works on. *)
Definition normalize (p : cases_payload) : DataFrame :=
  normalize_numeric (cases_frame p).

(* ------------------------------------------------------------------ *)
(** ** Quality checks (lines 226-257) *)

Inductive status := OK | WARNING | CRITICAL.

(** The two variables the checks update: [status] and [issues]. *)
Definition quality := (status * list string)%type.

(** ["WARNING" if status == "OK" else status]. *)
Definition warn (s : status) : status :=
  match s with OK => WARNING | _ => s end.

Definition append_issue (q : quality) (s : status) (issue : string) : quality :=
  (s, (snd q ++ [issue])%list).

Definition required : list string := ["date"; "location"].

Definition check_completeness (df : DataFrame) (q : quality) : quality :=
  let missing := filter (fun c => negb (has_column c df)) required in
  match missing with
  | [] => q
  | _ => append_issue q CRITICAL ("Missing columns: " ++ repr_list missing)
  end.

Definition check_date_validity (df : DataFrame) (q : quality) : quality :=
  match column "date" df with
  | Some col =>
      let null_dates := count_na col in
      if (0 <? null_dates)%nat then
        append_issue q (warn (fst q))
          ("Invalid date rows: " ++ str_of_nat null_dates)
      else q
  | None => q
  end.

(** [x.fillna(0) < 0] for one coerced value. *)
Definition negative (o : option Q) : bool :=
  let q := match o with Some q => q | None => 0%Q end in
  negb (Qle_bool 0 q).

(** [int((pd.to_numeric(col, errors="coerce").fillna(0) < 0).sum())]. *)
Definition count_negative (col : list cell) : nat :=
  List.length (filter (fun c => negative (to_numeric_elem lib c)) col).

Definition check_negative (df : DataFrame) (q : quality) (col : string)
  : quality :=
  match column col df with
  | Some c =>
      let neg := count_negative c in
      if (0 <? neg)%nat then
        append_issue q (warn (fst q))
          ("Negative values detected in " ++ col ++ ": " ++ str_of_nat neg)
      else q
  | None => q
  end.

Definition check_negatives (df : DataFrame) (q : quality) : quality :=
  fold_left (check_negative df) numeric_columns q.

(** [df["date"].max()] when the column exists and the maximum is not [NaT]. *)
Definition latest_timestamp (df : DataFrame) : option Timestamp :=
  match column "date" df with
  | Some col => column_max col
  | None => None
  end.

Definition check_timeliness (today : date) (df : DataFrame) (q : quality)
  : quality :=
  match latest_timestamp df with
  | Some t =>
      let latest := ts_date t in
      let gap := days_between today latest in
      if 30 <? gap then
        append_issue q (warn (fst q))
          ("Data timeliness warning: latest record is " ++ str_of_Z gap
           ++ " days old.")
      else q
  | None => q
  end.

Definition quality_checks (today : date) (df : DataFrame) : quality :=
  let q := (OK, []) in
  let q := check_completeness df q in
  let q := check_date_validity df q in
  let q := check_negatives df q in
  let q := check_timeliness today df q in
  q.

(* ------------------------------------------------------------------ *)
(** ** One pass of the script *)

(** The object answered by [/metadata]; a field is [None] when its key is
    absent. *)
Record metadata := {
  min_date : option cell;
  max_date : option cell;
  levels : option (list string);
  locations_by_level : option (list (string * list string))
}.

(** The object answered by [/summary]. *)
Record summary := { kpi : option (list (string * cell)) }.

Definition pstr (o : option string) : pvalue :=
  match o with Some s => PStr s | None => PNone end.

Definition fetch_metadata (api_base : string) (timeout : Z)
  (r : reply metadata) : script metadata :=
  api_get (api_base ++ "/metadata") [] timeout r.

Definition fetch_summary (api_base : string) (level location : option string)
  (start_date end_date : date) (timeout : Z) (r : reply summary)
  : script summary :=
  api_get (api_base ++ "/summary")
    [("level", pstr level);
     ("location", pstr location);
     ("start", PStr (strftime_ymd start_date));
     ("end", PStr (strftime_ymd end_date))]
    timeout r.

(** [limit] is [None] when the caller leaves the keyword out. *)
Definition fetch_cases (api_base : string) (level location : option string)
  (start_date end_date : date) (timeout : Z) (limit : option Z)
  (r : reply cases_payload) : script DataFrame :=
  let limit := match limit with Some n => n | None => 6000 end in
  payload <- api_get (api_base ++ "/cases")
    [("level", pstr level);
     ("location", pstr location);
     ("start", PStr (strftime_ymd start_date));
     ("end", PStr (strftime_ymd end_date));
     ("limit", PInt limit)]
    timeout r ;;
  ret (cases_frame payload).

Definition dash : string := "—".

(** [safe(v)]: [v] is [None] both for an absent key and for a JSON null. *)
Definition safe (v : option cell) : cell :=
  match v with
  | None | Some NA => Str dash
  | Some (Str s) =>
      if String.eqb (str_strip lib s) "" then Str dash else Str s
  | Some c => c
  end.

(** *** What the user and the clock contribute to a pass

    A widget returns the value the script passes as its default until the
    user changes it; [None] stands for an untouched widget. *)
Record world := {
  api_base_input : option string;
  timeout_input : option Z;
  metadata_reply : reply metadata;
  level_input : option nat;           (* position picked in the level list *)
  location_input : option nat;        (* position picked in the location list *)
  date_input : option (list date);    (* the tuple the range picker returns *)
  summary_reply : reply summary;
  cases_reply : reply cases_payload;
  today : date                        (* [datetime.now().date()] *)
}.

Definition or_default {A : Type} (o : option A) (d : A) : A :=
  match o with Some a => a | None => d end.

(** [st.selectbox(label, options, index)]: one of the options, [None] when
    there is none to return. *)
Definition selectbox (options : list string) (index : option nat)
  (picked : option nat) : option string :=
  match picked with
  | Some i => nth_error options i
  | None => match index with
            | Some i => nth_error options i
            | None => None
            end
  end.

(** ["Indonesia" if "Indonesia" in locs else locs[0]]; [None] is the
    [IndexError] of [locs[0]] on an empty list. *)
Definition default_loc (locs : list string) : option string :=
  if mem "Indonesia" locs then Some "Indonesia" else hd_error locs.

(** [f"{n:,}"]. *)
Fixpoint group_thousands (rev_digits : list ascii) (k : nat) : list ascii :=
  match rev_digits with
  | [] => []
  | c :: rest =>
      match k, rest with
      | 2%nat, _ :: _ => c :: ","%char :: group_thousands rest 0
      | _, _ => c :: group_thousands rest (S k)
      end
  end.

Definition str_thousands (n : nat) : string :=
  string_of_list_ascii
    (rev (group_thousands (rev (list_ascii_of_string (str_of_nat n))) 0)).

(** [f"{v}"] for a selectbox result. *)
Definition fmt_choice (o : option string) : string := or_default o "None".

(** *** Lines 10-31: page header and configuration widgets *)

Definition page_style : string :=
  newline ++ "<style>" ++ newline
  ++ "    .block-container { padding-top: 1.2rem; padding-bottom: 1.5rem; }"
  ++ newline
  ++ "    .stMetric { background: #ffffff; border: 1px solid #eee; padding: 12px; border-radius: 14px; }"
  ++ newline
  ++ "    div[data-testid=" ++ dquote ++ "stSidebar" ++ dquote
  ++ "] { border-right: 1px solid #f0f0f0; }" ++ newline
  ++ "</style>" ++ newline.

Definition default_api_base : string :=
  "https://web-production-1a8ae.up.railway.app/api".

Definition page_header (w : world) : script (string * Z) :=
  emit Main (PageConfig "PHARS-COVID 19" "wide") ;;
  emit Main (Text Markdown page_style) ;;
  emit Main (Text Title "PHARS") ;;
  emit Main (Text Caption "Public Health Analytics & Reporting System (M8 • M10 • M12) — baseline analytics upgraded into a deployable pitch.") ;;
  emit Sidebar (Text Header "Config") ;;
  emit Sidebar (TextInput "API Base URL" default_api_base) ;;
  emit Sidebar (Slider "API Timeout (sec)" 3 30 10) ;;
  emit Sidebar Divider ;;
  emit Sidebar (Text Header "Filters") ;;
  ret (rstrip_slash (or_default (api_base_input w) default_api_base),
       or_default (timeout_input w) 10).

(** *** Lines 85-95: metadata *)

Definition metadata_unreachable : string :=
  "API tidak bisa diakses. Pastikan `python3 api.py` sedang running dan URL benar.".

(** The [try] around [fetch_metadata]: the only exception the call raises is
    the one of [api_get], whose text is shown before the pass stops. *)
Definition load_metadata (w : world) (api_base : string) (timeout : Z)
  : script metadata :=
  let call := fetch_metadata api_base timeout (metadata_reply w) in
  match snd call with
  | Raised (RequestFailed msg) =>
      (fst call, Done tt) ;;
      emit Main (Text Error metadata_unreachable) ;;
      emit Main (Text Code msg) ;;
      stop
  | _ => call
  end.

(** [pd.to_datetime(meta[key]).date()]. *)
Definition metadata_date (v : option cell) (key : string) : script date :=
  match v with
  | None => raise (KeyError key)
  | Some c =>
      match to_datetime_elem lib [c] c with
      | Some t => ret (ts_date t)
      | None => raise (NotADate c)
      end
  end.

(** *** Lines 100-122: the filters *)

Record filters := {
  level : option string;
  location : option string;
  start_date : date;
  end_date : date
}.

Definition no_location : string := "Tidak ada location untuk level ini.".
Definition invalid_range : string :=
  "Start date tidak boleh lebih besar dari end date.".

(** [locations_by_level.get(level, [])]. *)
Definition locations_of (meta : metadata) (level : option string)
  : list string :=
  match level with
  | Some l => or_default (dict_get l (or_default (locations_by_level meta) [])) []
  | None => []
  end.

Definition sidebar_filters (w : world) (meta : metadata) (lo hi : date)
  : script filters :=
  let levels := or_default (levels meta) ["Country"] in
  emit Sidebar (Selectbox "Location Level" levels (Some 0%nat)) ;;
  let level := selectbox levels (Some 0%nat) (level_input w) in
  let locs := locations_of meta level in
  match locs with
  | [] => emit Sidebar (Text Warning no_location) ;; stop
  | _ :: _ =>
      match default_loc locs with
      | None => raise IndexError
      | Some default =>
          let index := index_of default locs in
          emit Sidebar (Selectbox "Location" locs index) ;;
          let location := selectbox locs index (location_input w) in
          emit Sidebar (DateInput "Date Range" [lo; hi] lo hi) ;;
          match or_default (date_input w) [lo; hi] with
          | [start_date; end_date] =>
              if date_gtb start_date end_date then
                emit Sidebar (Text Error invalid_range) ;; stop
              else
                ret {| level := level; location := location;
                       start_date := start_date; end_date := end_date |}
          | picked => raise (UnpackError (List.length picked))
          end
      end
  end.

(** *** Lines 127-134: fetching, and the guard on an empty frame *)

Definition no_data : string :=
  "Tidak ada data untuk filter yang dipilih. Coba ganti level/location atau rentang tanggal.".

Definition fetch_data (w : world) (api_base : string) (timeout : Z)
  (f : filters) : script (list (string * cell) * DataFrame) :=
  emit Main (Spinner "Loading from API...") ;;
  summary <- fetch_summary api_base (level f) (location f)
               (start_date f) (end_date f) timeout (summary_reply w) ;;
  df <- fetch_cases api_base (level f) (location f)
          (start_date f) (end_date f) timeout (Some 8000) (cases_reply w) ;;
  let kpi := or_default (kpi summary) [] in
  if empty df then emit Main (Text Warning no_data) ;; stop
  else ret (kpi, df).
(** *** Lines 139-144: executive KPIs *)

Definition executive_kpis (kpi : list (string * cell)) : script unit :=
  emit Main (Text Subheader "Executive KPIs (Operational Dashboard)") ;;
  emit Main (Columns [1; 1; 1; 1]) ;;
  emit (KpiColumn 1) (Metric "Total Cases" (safe (dict_get "total_cases" kpi))) ;;
  emit (KpiColumn 2) (Metric "Total Deaths" (safe (dict_get "total_deaths" kpi))) ;;
  emit (KpiColumn 3) (Metric "New Cases (7d)" (safe (dict_get "new_cases_7d" kpi))) ;;
  emit (KpiColumn 4)
    (Metric "Data Range"
       (Str (py_str lib (safe (dict_get "min_date" kpi)) ++ " → "
             ++ py_str lib (safe (dict_get "max_date" kpi))))).

(** [df.sort_values("date")] inside the script: the [KeyError] is not caught. *)
Definition sorted_by_date (df : DataFrame) : script DataFrame :=
  match sort_values "date" df with
  | Some sorted => ret sorted
  | None => raise (KeyError "date")
  end.

(** *** Lines 154-185: the Overview tab; returns [df] after the numeric loop *)

Definition tab_overview (f : filters) (df : DataFrame) : script DataFrame :=
  emit TabOverview (Columns [2; 1]) ;;
  let df := normalize_numeric df in
  (if has_column "new_cases" df then
     sorted <- sorted_by_date df ;;
     emit OverviewLeft (PlotlyChart sorted "date" "new_cases" "New Cases Over Time")
   else
     emit OverviewLeft (Text Info "Kolom `new_cases` tidak tersedia.")) ;;
  (if has_column "new_deaths" df then
     sorted <- sorted_by_date df ;;
     emit OverviewLeft (PlotlyChart sorted "date" "new_deaths" "New Deaths Over Time")
   else ret tt) ;;
  emit OverviewRight (Text Markdown "### Snapshot") ;;
  emit OverviewRight (Text Write ("**Level:** " ++ fmt_choice (level f))) ;;
  emit OverviewRight (Text Write ("**Location:** " ++ fmt_choice (location f))) ;;
  emit OverviewRight
    (Text Write ("**Window:** " ++ isoformat (start_date f) ++ " → "
                 ++ isoformat (end_date f))) ;;
  emit OverviewRight (Text Write ("**Rows:** " ++ str_thousands (nrows df))) ;;
  match latest_timestamp df with
  | Some t =>
      emit OverviewRight
        (Text Write ("**Latest record:** " ++ isoformat (ts_date t)))
  | None => ret tt
  end ;;
  emit OverviewRight (Text Markdown "### Preview") ;;
  sorted <- sorted_by_date df ;;
  emit OverviewRight (Dataframe (tail 10 sorted)) ;;
  ret df.

(** *** Lines 190-218: the Report tab *)

Definition narrative (f : filters) (latest_record : string) : string :=
  newline
  ++ "**Context**" ++ newline
  ++ "- **Level:** " ++ fmt_choice (level f) ++ newline
  ++ "- **Location:** " ++ fmt_choice (location f) ++ newline
  ++ "- **Reporting window:** " ++ isoformat (start_date f) ++ " → "
  ++ isoformat (end_date f) ++ newline
  ++ "- **Latest record date:** " ++ latest_record ++ newline
  ++ newline
  ++ "**Decision Value**" ++ newline
  ++ "- Executive KPIs + trends support quicker situational awareness." ++ newline
  ++ "- API-based design enables interoperability across systems." ++ newline.

Definition report_file_name (f : filters) : string :=
  "PHARS_Report_" ++ fmt_choice (level f) ++ "_" ++ fmt_choice (location f)
  ++ "_" ++ isoformat (start_date f) ++ "_" ++ isoformat (end_date f) ++ ".csv".

Definition tab_report (f : filters) (df : DataFrame) : script unit :=
  emit TabReport (Text Markdown "### Situation Report (SC4 – Module 8)") ;;
  emit TabReport (Text Write "Audience: Public Health Agency / Hospital Management") ;;
  emit TabReport (Text Write "Purpose: weekly monitoring & resource planning.") ;;
  let latest_record :=
    match latest_timestamp df with
    | Some t => isoformat (ts_date t)
    | None => dash
    end in
  emit TabReport (Text Markdown (narrative f latest_record)) ;;
  emit TabReport (Text Markdown "#### Export (CSV)") ;;
  export_df <- sorted_by_date df ;;
  let csv_bytes := encode_utf8 (to_csv export_df) in
  emit TabReport
    (DownloadButton "Download CSV Report" csv_bytes (report_file_name f)
       "text/csv").

(** *** Lines 223-281: the Governance tab *)

Definition no_issues : string :=
  "No quality issues detected for the selected window.".

Definition status_badge (s : status) : widget :=
  match s with
  | OK => Text Success "Quality Status: OK ✅"
  | WARNING => Text Warning "Quality Status: WARNING ⚠️"
  | CRITICAL => Text Error "Quality Status: CRITICAL ❌"
  end.

(** Lines 267-272: the findings, one line each, or the sentence that says
    there is none. *)
Definition findings_report (issues : list string) : list widget :=
  match issues with
  | [] => [Text Write no_issues]
  | _ => Text Markdown "**Findings**"
         :: map (fun it => Text Write ("- " ++ it)) issues
  end.

Definition governance_notes : string :=
  newline
  ++ "- This system uses **aggregated public health data** (no personal identifiers)."
  ++ newline
  ++ "- Recommended deployment policy:" ++ newline
  ++ "  - **Public view:** aggregate KPIs only" ++ newline
  ++ "  - **Analyst view:** trend + export features" ++ newline
  ++ "- Auditability is supported through reproducible filters and exportable reports."
  ++ newline.

Definition emit_all (c : container) (ws : list widget) : script unit :=
  (map (Ui c) ws, Done tt).

Definition tab_gov (now : date) (df : DataFrame) : script unit :=
  emit TabGovernance (Text Markdown "### Data Quality & Governance (SC6 – Module 12)") ;;
  let q := quality_checks now df in
  emit TabGovernance (status_badge (fst q)) ;;
  emit_all TabGovernance (findings_report (snd q)) ;;
  emit TabGovernance (Text Markdown "### Governance Notes") ;;
  emit TabGovernance (Text Markdown governance_notes).

(** *** The whole script *)

Definition closing_tip : string :=
  "Tip: Untuk video, tampilkan 1) API endpoint, 2) filter level+location, 3) KPI berubah, 4) export report, 5) governance tab.".

(** Lines 127-283: everything after the filters. *)
Definition dashboard (w : world) (api_base : string) (timeout : Z)
  (f : filters) : script unit :=
  fetched <- fetch_data w api_base timeout f ;;
  let kpi := fst fetched in
  let df := snd fetched in
  executive_kpis kpi ;;
  emit Main (Tabs ["📈 Overview"; "🧾 Report"; "🛡 Governance"]) ;;
  df <- tab_overview f df ;;
  tab_report f df ;;
  tab_gov (today w) df ;;
  emit Main (Text Caption closing_tip).

Definition run (w : world) : script unit :=
  cfg <- page_header w ;;
  let api_base := fst cfg in
  let timeout := snd cfg in
  meta <- load_metadata w api_base timeout ;;
  lo <- metadata_date (min_date meta) "min_date" ;;
  hi <- metadata_date (max_date meta) "max_date" ;;
  f <- sidebar_filters w meta lo hi ;;
  dashboard w api_base timeout f.

End Script.

(* ------------------------------------------------------------------ *)
(** ** A library instance to run the model on

    It reads ISO dates ([YYYY-MM-DD]) and integer literals, which is what the
    [/cases] endpoint serves; anything else is not a date or not a number. *)

Definition digit (c : ascii) : option Z :=
  let n := Z.of_nat (nat_of_ascii c) in
  if (48 <=? n) && (n <=? 57) then Some (n - 48) else None.

Fixpoint digits (s : string) (acc : Z) : option Z :=
  match s with
  | EmptyString => Some acc
  | String c rest =>
      match digit c with
      | Some d => digits rest (10 * acc + d)
      | None => None
      end
  end.

Definition parse_nat (s : string) : option Z :=
  match s with
  | EmptyString => None
  | _ => digits s 0
  end.

Definition parse_int (s : string) : option Z :=
  match s with
  | String "-" rest => option_map Z.opp (parse_nat rest)
  | _ => parse_nat s
  end.

Definition days_in_month (y m : Z) : Z :=
  nth (Z.to_nat m) [0; 31; 28; 31; 30; 31; 30; 31; 31; 30; 31; 30; 31] 0
  + (if (m =? 2) && is_leap y then 1 else 0).

Definition parse_iso_date (s : string) : option date :=
  match parse_nat (substring 0 4 s), substring 4 1 s,
        parse_nat (substring 5 2 s), substring 7 1 s,
        parse_nat (substring 8 2 s) with
  | Some y, "-", Some m, "-", Some d =>
      if (String.length s =? 10)%nat && (1 <=? y)
         && (1 <=? m) && (m <=? 12) && (1 <=? d) && (d <=? days_in_month y m)
      then Some (mkdate y m d) else None
  | _, _, _, _, _ => None
  end.

Definition is_space (c : ascii) : bool :=
  let n := nat_of_ascii c in
  ((9 <=? n) && (n <=? 13) || (28 <=? n) && (n <=? 32))%nat.

Fixpoint lstrip (s : string) : string :=
  match s with
  | EmptyString => EmptyString
  | String c rest => if is_space c then lstrip rest else s
  end.

Fixpoint rstrip (s : string) : string :=
  match s with
  | EmptyString => EmptyString
  | String c rest =>
      match rstrip rest with
      | EmptyString => if is_space c then EmptyString else String c EmptyString
      | r => String c r
      end
  end.

Definition show_cell (na : string) (c : cell) : string :=
  match c with
  | NA => na
  | Bool true => "True"
  | Bool false => "False"
  | Num q => str_of_Z (Qnum q / Zpos (Qden q))
  | Str s => s
  | Time t => isoformat (ts_date t)
  end.

Definition reference_library : library := {|
  to_datetime_elem := fun _ c =>
    match c with
    | Str s => option_map (fun d => mkts d 0) (parse_iso_date s)
    | Time t => Some t
    | _ => None
    end;
  to_numeric_elem := fun c =>
    match c with
    | Num q => Some q
    | Bool b => Some (if b then 1%Q else 0%Q)
    | Str s => option_map inject_Z (parse_int (rstrip (lstrip s)))
    | _ => None
    end;
  py_str := show_cell "None";
  str_strip := fun s => rstrip (lstrip s);
  csv_value := show_cell ""
|}.

(* ------------------------------------------------------------------ *)
(** ** Vocabulary for the statements *)

(** Severity order: OK < WARNING < CRITICAL. *)
Definition severity (s : status) : nat :=
  match s with OK => 0 | WARNING => 1 | CRITICAL => 2 end.

Definition status_le (a b : status) : Prop := (severity a <= severity b)%nat.

Definition status_max (a b : status) : status :=
  if (severity a <=? severity b)%nat then b else a.

(** What one check concludes when it is run on its own, from a clean slate. *)
Definition verdict (check : quality -> quality) : status :=
  fst (check (OK, [])).

Definition findings (check : quality -> quality) : list string :=
  snd (check (OK, [])).

(** The number of negative entries the check counts in column [col]; a column
    that is not in the schema is not looked at. *)
Definition negatives (lib : library) (df : DataFrame) (col : string) : nat :=
  match column col df with
  | Some c => count_negative lib c
  | None => 0
  end.

Definition negative_finding (lib : library) (df : DataFrame) (col : string)
  : string :=
  "Negative values detected in " ++ col ++ ": " ++ str_of_nat (negatives lib df col).

(** The columns among the four that hold a negative entry. *)
Definition offending (lib : library) (df : DataFrame) : list string :=
  filter (fun col => (0 <? negatives lib df col)%nat) numeric_columns.

(** Sample payloads. *)
Definition sample_row (d : string) (deaths : Q) : record :=
  [("date", Str d); ("location", Str "Indonesia");
   ("new_cases", Num 12); ("new_deaths", Num deaths)].

Definition sample_clean : cases_payload :=
  {| cases_data := Some [sample_row "2023-01-01" 0; sample_row "2023-01-02" 3] |}.

Definition sample_negative : cases_payload :=
  {| cases_data := Some [sample_row "2023-01-01" 2; sample_row "2023-01-02" (-5)] |}.

(** The configuration a pass works with. *)
Definition api_base_of (w : world) : string :=
  rstrip_slash (or_default (api_base_input w) default_api_base).

Definition timeout_of (w : world) : Z := or_default (timeout_input w) 10.

(** The level the level widget returns for the metadata [meta]. *)
Definition level_of (w : world) (meta : metadata) : option string :=
  selectbox (or_default (levels meta) ["Country"]) (Some 0%nat) (level_input w).

(** What a pass has done when it reaches the filters: the page header, the
    configuration widgets and the metadata request. *)
Definition preamble (w : world) : list event :=
  (fst (page_header w)
   ++ [Request (api_base_of w ++ "/metadata") [] (timeout_of w)])%list.

(** The GET requests of a trace, in order. *)
Definition requests (t : list event) : list (string * list (string * pvalue)) :=
  flat_map (fun e => match e with
                     | Request url params _ => [(url, params)]
                     | Ui _ _ => []
                     end) t.

(** Events of the content sections: the KPI row, the tabs and what is drawn
    inside them. *)
Definition renders_content (e : event) : bool :=
  match e with
  | Ui (KpiColumn _ | TabOverview | OverviewLeft | OverviewRight
       | TabReport | TabGovernance) _ => true
  | Ui _ (Text Subheader _ | Columns _ | Tabs _ | Metric _ _
         | PlotlyChart _ _ _ _ | Dataframe _ | DownloadButton _ _ _ _) => true
  | _ => false
  end.

Definition no_content (t : list event) : bool :=
  forallb (fun e => negb (renders_content e)) t.

(** The metadata of the specification's scenario, and a world around it. *)
Definition sample_metadata : metadata := {|
  min_date := Some (Str "2020-01-01");
  max_date := Some (Str "2023-01-01");
  levels := Some ["Country"; "Province"];
  locations_by_level := Some [("Country", ["Indonesia"; "USA"]); ("Province", [])]
|}.

Definition sample_world (p : cases_payload) : world := {|
  api_base_input := None;
  timeout_input := None;
  metadata_reply := Answer sample_metadata;
  level_input := None;
  location_input := None;
  date_input := None;
  summary_reply := Answer {| kpi := Some [("total_cases", Num 5)] |};
  cases_reply := Answer p;
  today := mkdate 2023 1 10
|}.

(** The cell of row [i] in column [name]; [None] when there is no such row or
    no such column. *)
Definition cell_at (df : DataFrame) (i : nat) (name : string) : option cell :=
  match index_of name (columns df), nth_error (rows df) i with
  | Some j, Some r => Some (nth j r NA)
  | _, _ => None
  end.

(** What [errors="coerce"] makes of one element. *)
Definition coerced_date (lib : library) (col : list cell) (c : cell) : cell :=
  match to_datetime_elem lib col c with Some t => Time t | None => NA end.

Definition coerced_number (lib : library) (c : cell) : cell :=
  match to_numeric_elem lib c with Some q => Num q | None => NA end.

(** The values the payload gives for one key, row by row. *)
Definition raw_column (name : string) (data : list record) : list cell :=
  map (fun r => cell_of (dict_get name r)) data.

(** Every row has one cell per column. *)
Definition well_formed (df : DataFrame) : Prop :=
  Forall (fun r => List.length r = List.length (columns df)) (rows df).

Definition is_download (e : event) : bool :=
  match e with
  | Ui _ (DownloadButton _ _ _ _) => true
  | _ => false
  end.

(** No event of the trace satisfies [p]. *)
Definition never (p : event -> bool) (t : list event) : bool :=
  forallb (fun e => negb (p e)) t.

(** A payload whose rows have no ["date"] field. *)
Definition sample_dateless : cases_payload :=
  {| cases_data := Some [[("location", Str "Indonesia"); ("new_cases", Num 3)]] |}.

(** A world with untouched configuration and selection widgets. *)
Definition world_of (m : reply metadata) (dates : option (list date))
  (s : reply summary) (c : reply cases_payload) : world := {|
  api_base_input := None;
  timeout_input := None;
  metadata_reply := m;
  level_input := None;
  location_input := None;
  date_input := dates;
  summary_reply := s;
  cases_reply := c;
  today := mkdate 2023 1 10
|}.

Definition metadata_without_min_date : metadata := {|
  min_date := None;
  max_date := Some (Str "2023-01-01");
  levels := None;
  locations_by_level := None
|}.

(** Vocabulary for the proofs. *)

(** A check accumulates: it raises the status to the maximum of what it finds
    and what was there, and appends its findings. *)
Definition accumulates (c : quality -> quality) : Prop :=
  forall q, c q = (status_max (fst q) (verdict c), (snd q ++ findings c)%list).

(** A check that has nothing to report leaves the status alone. *)
Definition quiet (c : quality -> quality) : Prop :=
  findings c = [] -> verdict c = OK.

(** The two requests of [fetch_data]. *)
Definition summary_request (api_base : string) (timeout : Z) (f : filters)
  : event :=
  Request (api_base ++ "/summary")
    [("level", pstr (level f)); ("location", pstr (location f));
     ("start", PStr (strftime_ymd (start_date f)));
     ("end", PStr (strftime_ymd (end_date f)))] timeout.

Definition cases_request (api_base : string) (timeout : Z) (f : filters)
  : event :=
  Request (api_base ++ "/cases")
    [("level", pstr (level f)); ("location", pstr (location f));
     ("start", PStr (strftime_ymd (start_date f)));
     ("end", PStr (strftime_ymd (end_date f)));
     ("limit", PInt 8000)] timeout.

(** A computation that draws but does not call the HTTP API. *)
Definition ui_only {A : Type} (m : script A) : Prop := requests (fst m) = [].

Definition rewrite_column (j : nat) (g : cell -> cell) (df : DataFrame)
  : DataFrame :=
  {| columns := columns df;
     rows := map (fun r => replace_nth j (g (nth j r NA)) r) (rows df) |}.

(** One turn of the numeric loop. *)
Definition numeric_step (lib : library) (df : DataFrame) (col : string)
  : DataFrame :=
  if has_column col df then
    match column col df with
    | Some c => set_column col (to_numeric lib c) df
    | None => df
    end
  else df.

(* ================================================================== *)
(** * Properties of the script *)

(** ** Lists of strings *)

Lemma mem_In (x : string) (l : list string) : mem x l = true <-> In x l.
Proof.
  unfold mem. rewrite existsb_exists. split.
  - intros [y [Hy He]]. apply String.eqb_eq in He. now subst.
  - intros H. exists x. split; [assumption | apply String.eqb_refl].
Qed.

Lemma mem_false (x : string) (l : list string) : mem x l = false <-> ~ In x l.
Proof.
  rewrite <- mem_In. destruct (mem x l); split; congruence.
Qed.

Lemma index_of_nth_error (x : string) (l : list string) (i : nat) :
  index_of x l = Some i -> nth_error l i = Some x.
Proof.
  revert i. induction l as [|y l IH]; intros i; simpl; [discriminate|].
  destruct (String.eqb_spec y x) as [->|Hne].
  - intros [= <-]. reflexivity.
  - destruct (index_of x l) as [j|]; simpl; [|discriminate].
    intros [= <-]. simpl. now apply IH.
Qed.

Lemma index_of_In (x : string) (l : list string) :
  In x l -> exists i, index_of x l = Some i.
Proof.
  induction l as [|y l IH]; simpl; [tauto|].
  intros H. destruct (String.eqb_spec y x) as [->|Hne]; [now exists 0%nat|].
  destruct H as [H|H]; [congruence|].
  destruct (IH H) as [i Hi]. rewrite Hi. now exists (S i).
Qed.

Lemma index_of_None (x : string) (l : list string) :
  index_of x l = None <-> ~ In x l.
Proof.
  split.
  - intros H Hin. destruct (index_of_In x l Hin). congruence.
  - intros H. destruct (index_of x l) as [i|] eqn:E; [|reflexivity].
    exfalso. apply H. eapply nth_error_In, index_of_nth_error, E.
Qed.

(** ** The script monad *)

Lemma bind_done {A B : Type} (t : list event) (a : A) (k : A -> script B) :
  bind (t, Done a) k = ((t ++ fst (k a))%list, snd (k a)).
Proof. reflexivity. Qed.

Lemma bind_stopped {A B : Type} (t : list event) (k : A -> script B) :
  bind (t, Stopped) k = (t, Stopped).
Proof. reflexivity. Qed.

Lemma bind_raised {A B : Type} (t : list event) (e : exn) (k : A -> script B) :
  bind (t, Raised e) k = (t, Raised e).
Proof. reflexivity. Qed.

(** ** The default location *)

Lemma default_loc_some (locs : list string) :
  locs <> [] ->
  exists d, default_loc locs = Some d /\ In d locs.
Proof.
  intros Hne. unfold default_loc.
  destruct (mem "Indonesia" locs) eqn:E.
  - exists "Indonesia". split; [reflexivity | now apply mem_In].
  - destruct locs as [|first rest]; [congruence|].
    exists first. split; [reflexivity | now left].
Qed.

Lemma selectbox_member (options : list string) (index picked : option nat)
  (l : string) :
  selectbox options index picked = Some l -> In l options.
Proof.
  unfold selectbox.
  destruct picked as [i|]; [|destruct index as [i|]; [|discriminate]];
    apply nth_error_In.
Qed.

(** The filters a pass ends up with, when the sidebar lets it through. *)
Lemma sidebar_filters_done (w : world) (meta : metadata) (lo hi : date)
  (f : filters) :
  snd (sidebar_filters w meta lo hi) = Done f ->
  let lv := selectbox (or_default (levels meta) ["Country"]) (Some 0%nat)
              (level_input w) in
  let locs := locations_of meta lv in
  level f = lv
  /\ locs <> []
  /\ (exists d, default_loc locs = Some d
                /\ location f = selectbox locs (index_of d locs) (location_input w))
  /\ or_default (date_input w) [lo; hi] = [start_date f; end_date f]
  /\ date_gtb (start_date f) (end_date f) = false.
Proof.
  unfold sidebar_filters. cbv zeta.
  set (lv := selectbox _ _ _). set (locs := locations_of meta lv).
  destruct locs as [|l0 locs'] eqn:El; [discriminate|].
  destruct (default_loc_some (l0 :: locs')) as [d [Hd _]]; [discriminate|].
  rewrite Hd.
  destruct (or_default (date_input w) [lo; hi]) as [|s [|e [|x rest]]];
    try discriminate.
  destruct (date_gtb s e) eqn:Eg; [discriminate|].
  cbn. intros [= <-]. cbn. repeat split; try discriminate; eauto.
Qed.

(** [C7] For a level whose location list is not empty, the default location
    is "Indonesia" when the list holds it and the first entry otherwise; it is
    a member of the list, it is what the location widget returns until the
    user picks something, whatever the widget returns is a member of the
    list, and this is the location the pass goes on with. *)
Theorem C7_default_location (locs : list string) :
  locs <> [] ->
  exists d,
    default_loc locs = Some d
    /\ (In "Indonesia" locs -> d = "Indonesia")
    /\ (~ In "Indonesia" locs -> hd_error locs = Some d)
    /\ In d locs
    /\ selectbox locs (index_of d locs) None = Some d
    /\ (forall picked l,
          selectbox locs (index_of d locs) picked = Some l -> In l locs)
    /\ (forall w meta lo hi f,
          locations_of meta
            (selectbox (or_default (levels meta) ["Country"]) (Some 0%nat)
               (level_input w)) = locs ->
          location_input w = None ->
          snd (sidebar_filters w meta lo hi) = Done f ->
          location f = Some d).
Proof.
  intros Hne.
  destruct (default_loc_some locs Hne) as [d [Hd Hin]].
  assert (Hsel : selectbox locs (index_of d locs) None = Some d).
  { destruct (index_of_In d locs Hin) as [i Hi]. rewrite Hi. cbn.
    now apply index_of_nth_error. }
  exists d. repeat split; try assumption.
  - intros HI. apply mem_In in HI. unfold default_loc in Hd.
    rewrite HI in Hd. congruence.
  - intros HI. apply mem_false in HI. unfold default_loc in Hd.
    rewrite HI in Hd. assumption.
  - intros picked l. apply selectbox_member.
  - intros w meta lo hi f Hl Hp Hf.
    apply sidebar_filters_done in Hf. cbv zeta in Hf. rewrite Hl, Hp in Hf.
    destruct Hf as (_ & _ & (d' & Hd' & Hloc) & _).
    rewrite Hd in Hd'. injection Hd' as <-. now rewrite Hloc.
Qed.

(** ** Quality checks *)

Lemma status_max_OK_l (s : status) : status_max OK s = s.
Proof. now destruct s. Qed.

Lemma status_max_assoc (a b c : status) :
  status_max (status_max a b) c = status_max a (status_max b c).
Proof. now destruct a, b, c. Qed.

Lemma status_max_warn (s : status) : status_max s WARNING = warn s.
Proof. now destruct s. Qed.

Lemma status_max_critical (s : status) : status_max s CRITICAL = CRITICAL.
Proof. now destruct s. Qed.

Lemma status_le_max_l (a b : status) : status_le a (status_max a b).
Proof. destruct a, b; unfold status_le; simpl; lia. Qed.

Lemma status_le_warn (s : status) : status_le WARNING (warn s).
Proof. destruct s; unfold status_le; simpl; lia. Qed.

Lemma accumulates_id : accumulates (fun q => q).
Proof.
  intros [s l]. unfold verdict, findings. simpl.
  rewrite app_nil_r. now destruct s.
Qed.

Lemma accumulates_append (s : status) (issue : string) :
  s <> OK -> accumulates (fun q => append_issue q (status_max (fst q) s) issue).
Proof.
  intros Hs [s0 l]. unfold verdict, findings, append_issue. simpl.
  now rewrite status_max_OK_l.
Qed.

Lemma accumulates_compose (c c' : quality -> quality) :
  accumulates c -> accumulates c' ->
  accumulates (fun q => c' (c q))
  /\ verdict (fun q => c' (c q)) = status_max (verdict c) (verdict c')
  /\ findings (fun q => c' (c q)) = (findings c ++ findings c')%list.
Proof.
  intros Hc Hc'.
  assert (Hv : verdict (fun q => c' (c q)) = status_max (verdict c) (verdict c')).
  { unfold verdict at 1. rewrite Hc', Hc. simpl. now rewrite status_max_OK_l. }
  assert (Hf : findings (fun q => c' (c q)) = (findings c ++ findings c')%list).
  { unfold findings at 1. rewrite Hc', Hc. reflexivity. }
  split; [|split; assumption].
  intros q. rewrite Hv, Hf, Hc', Hc. simpl.
  now rewrite status_max_assoc, app_assoc.
Qed.

Lemma accumulates_ext (c c' : quality -> quality) :
  (forall q, c q = c' q) -> accumulates c -> accumulates c'.
Proof.
  intros He Hc q. unfold verdict, findings. rewrite <- !He. apply Hc.
Qed.

Lemma check_completeness_accumulates (df : DataFrame) :
  accumulates (check_completeness df).
Proof.
  unfold check_completeness.
  destruct (filter (fun c => negb (has_column c df)) required) as [|m ms].
  - apply accumulates_id.
  - eapply accumulates_ext; [|apply (accumulates_append CRITICAL); discriminate].
    intros q. cbv beta. now rewrite status_max_critical.
Qed.

Lemma check_date_validity_accumulates (df : DataFrame) :
  accumulates (check_date_validity df).
Proof.
  unfold check_date_validity.
  destruct (column "date" df) as [col|]; [|apply accumulates_id].
  cbv zeta. destruct (0 <? count_na col)%nat; [|apply accumulates_id].
  eapply accumulates_ext; [|apply (accumulates_append WARNING); discriminate].
  intros q. cbv beta. now rewrite status_max_warn.
Qed.

Lemma check_negative_accumulates (lib : library) (df : DataFrame)
  (col : string) :
  accumulates (fun q => check_negative lib df q col).
Proof.
  unfold check_negative.
  destruct (column col df) as [c|]; [|apply accumulates_id].
  cbv zeta. destruct (0 <? count_negative lib c)%nat; [|apply accumulates_id].
  eapply accumulates_ext; [|apply (accumulates_append WARNING); discriminate].
  intros q. cbv beta. now rewrite status_max_warn.
Qed.

Lemma fold_check_negative_accumulates (lib : library) (df : DataFrame)
  (cols : list string) :
  accumulates (fold_left (check_negative lib df) cols).
Proof.
  induction cols as [|col cols IH] using rev_ind.
  - apply accumulates_id.
  - eapply accumulates_ext.
    2:{ apply (accumulates_compose _ (fun q => check_negative lib df q col) IH).
        apply check_negative_accumulates. }
    intros q. cbv beta. now rewrite fold_left_app.
Qed.

Lemma check_negatives_accumulates (lib : library) (df : DataFrame) :
  accumulates (check_negatives lib df).
Proof. apply fold_check_negative_accumulates. Qed.

Lemma check_timeliness_accumulates (today : date) (df : DataFrame) :
  accumulates (check_timeliness today df).
Proof.
  unfold check_timeliness.
  destruct (latest_timestamp df) as [t|]; [|apply accumulates_id].
  cbv zeta. destruct (30 <? days_between today (ts_date t));
    [|apply accumulates_id].
  eapply accumulates_ext; [|apply (accumulates_append WARNING); discriminate].
  intros q. cbv beta. now rewrite status_max_warn.
Qed.

Lemma accumulates_monotone (c : quality -> quality) (q : quality) :
  accumulates c ->
  status_le (fst q) (fst (c q)) /\ exists new, snd (c q) = (snd q ++ new)%list.
Proof.
  intros Hc. rewrite Hc. simpl. split; [apply status_le_max_l | eauto].
Qed.

Lemma quiet_id : quiet (fun q => q).
Proof. intros _. reflexivity. Qed.

Lemma quiet_append (f : quality -> status) (issue : string) :
  quiet (fun q => append_issue q (f q) issue).
Proof. unfold quiet, findings, append_issue. simpl. discriminate. Qed.

Lemma quiet_compose (c c' : quality -> quality) :
  accumulates c -> accumulates c' -> quiet c -> quiet c' ->
  quiet (fun q => c' (c q)).
Proof.
  intros Hc Hc' Hq Hq'.
  destruct (accumulates_compose c c' Hc Hc') as (_ & Hv & Hf).
  unfold quiet. rewrite Hv, Hf. intros H.
  apply app_eq_nil in H. destruct H as [H1 H2].
  now rewrite (Hq H1), (Hq' H2).
Qed.

Lemma check_completeness_quiet (df : DataFrame) : quiet (check_completeness df).
Proof.
  unfold check_completeness.
  destruct (filter _ required); [apply quiet_id|].
  apply (quiet_append (fun _ => CRITICAL)).
Qed.

Lemma check_date_validity_quiet (df : DataFrame) :
  quiet (check_date_validity df).
Proof.
  unfold check_date_validity.
  destruct (column "date" df) as [col|]; [|apply quiet_id].
  cbv zeta. destruct (0 <? count_na col)%nat; [|apply quiet_id].
  apply (quiet_append (fun q => warn (fst q))).
Qed.

Lemma check_negative_quiet (lib : library) (df : DataFrame) (col : string) :
  quiet (fun q => check_negative lib df q col).
Proof.
  unfold check_negative.
  destruct (column col df) as [c|]; [|apply quiet_id].
  cbv zeta. destruct (0 <? count_negative lib c)%nat; [|apply quiet_id].
  apply (quiet_append (fun q => warn (fst q))).
Qed.

Lemma check_negatives_quiet (lib : library) (df : DataFrame) :
  quiet (check_negatives lib df).
Proof.
  unfold check_negatives.
  induction numeric_columns as [|col cols IH] using rev_ind.
  - apply quiet_id.
  - unfold quiet, findings, verdict in *. rewrite !fold_left_app. simpl.
    apply (quiet_compose (fold_left (check_negative lib df) cols)
                         (fun q => check_negative lib df q col)).
    + apply fold_check_negative_accumulates.
    + apply check_negative_accumulates.
    + exact IH.
    + apply check_negative_quiet.
Qed.

Lemma check_timeliness_quiet (today : date) (df : DataFrame) :
  quiet (check_timeliness today df).
Proof.
  unfold check_timeliness.
  destruct (latest_timestamp df) as [t|]; [|apply quiet_id].
  cbv zeta. destruct (30 <? days_between today (ts_date t)); [|apply quiet_id].
  apply (quiet_append (fun q => warn (fst q))).
Qed.

(** [C1] One pass of the quality checks runs completeness, date validity,
    non-negativity and timeliness in that order; no check lowers the status
    or removes a finding; the final status is the maximum of the four
    verdicts; the findings are those of the four checks in execution order;
    and when no check has a finding the status is OK and the tab writes the
    sentence that says no issue was detected. *)
Theorem C1_quality_pass (lib : library) (today : date) (df : DataFrame) :
  let c1 := check_completeness df in
  let c2 := check_date_validity df in
  let c3 := check_negatives lib df in
  let c4 := check_timeliness today df in
  let final := quality_checks lib today df in
  final = c4 (c3 (c2 (c1 (OK, []))))
  /\ (forall c, In c [c1; c2; c3; c4] ->
      forall q, status_le (fst q) (fst (c q))
                /\ exists new, snd (c q) = (snd q ++ new)%list)
  /\ fst final
     = status_max (verdict c1)
         (status_max (verdict c2) (status_max (verdict c3) (verdict c4)))
  /\ snd final = (findings c1 ++ findings c2 ++ findings c3 ++ findings c4)%list
  /\ (findings c1 = [] -> findings c2 = [] -> findings c3 = [] ->
      findings c4 = [] ->
      final = (OK, [])
      /\ fst (tab_gov lib today df)
         = [Ui TabGovernance
              (Text Markdown "### Data Quality & Governance (SC6 – Module 12)");
            Ui TabGovernance (Text Success "Quality Status: OK ✅");
            Ui TabGovernance (Text Write no_issues);
            Ui TabGovernance (Text Markdown "### Governance Notes");
            Ui TabGovernance (Text Markdown governance_notes)]).
Proof.
  intros c1 c2 c3 c4 final.
  pose proof (check_completeness_accumulates df) as A1.
  pose proof (check_date_validity_accumulates df) as A2.
  pose proof (check_negatives_accumulates lib df) as A3.
  pose proof (check_timeliness_accumulates today df) as A4.
  fold c1 in A1. fold c2 in A2. fold c3 in A3. fold c4 in A4.
  assert (Hfinal : final = (status_max (verdict c1)
                      (status_max (verdict c2)
                         (status_max (verdict c3) (verdict c4))),
                    (findings c1 ++ findings c2 ++ findings c3 ++ findings c4)%list)).
  { unfold final, quality_checks. cbv zeta. fold c1 c2 c3 c4.
    rewrite A4, A3, A2. simpl. unfold verdict at 1, findings at 1.
    now rewrite !status_max_assoc, <- !app_assoc. }
  split; [reflexivity|].
  split.
  { intros c Hc q. apply accumulates_monotone.
    simpl in Hc. destruct Hc as [<-|[<-|[<-|[<-|[]]]]]; assumption. }
  split; [now rewrite Hfinal|]. split; [now rewrite Hfinal|].
  intros F1 F2 F3 F4.
  assert (HOK : final = (OK, [])).
  { assert (Q1 : verdict c1 = OK) by exact (check_completeness_quiet df F1).
    assert (Q2 : verdict c2 = OK) by exact (check_date_validity_quiet df F2).
    assert (Q3 : verdict c3 = OK) by exact (check_negatives_quiet lib df F3).
    assert (Q4 : verdict c4 = OK) by exact (check_timeliness_quiet today df F4).
    rewrite Hfinal, F1, F2, F3, F4, Q1, Q2, Q3, Q4. reflexivity. }
  split; [assumption|].
  unfold tab_gov. cbv zeta. fold final. rewrite HOK. reflexivity.
Qed.

Lemma C1_quality_pass_witness :
  quality_checks reference_library (mkdate 2023 1 10)
    (normalize reference_library sample_clean) = (OK, []).
Proof.
  destruct (C1_quality_pass reference_library (mkdate 2023 1 10)
              (normalize reference_library sample_clean))
    as (_ & _ & _ & _ & H).
  apply H; reflexivity.
Defined.

(** ** Non-negativity *)

Lemma warn_idem (s : status) : warn (warn s) = warn s.
Proof. now destruct s. Qed.

Lemma negative_spec (o : option Q) :
  negative o = true <-> exists v, o = Some v /\ (v < 0)%Q.
Proof.
  unfold negative. rewrite negb_true_iff.
  destruct o as [v|].
  - split.
    + intros H. exists v. split; [reflexivity|].
      apply Qnot_le_lt. intros Hle. apply Qle_bool_iff in Hle. congruence.
    + intros (v' & [= <-] & Hlt).
      destruct (Qle_bool 0 v) eqn:E; [|reflexivity].
      apply Qle_bool_iff in E. exfalso. now apply (Qlt_not_le v 0).
  - split; [discriminate|]. intros (v & H & _). discriminate.
Qed.

Lemma check_negative_unfold (lib : library) (df : DataFrame) (q : quality)
  (col : string) :
  check_negative lib df q col
  = if (0 <? negatives lib df col)%nat
    then (warn (fst q), (snd q ++ [negative_finding lib df col])%list)
    else q.
Proof.
  unfold check_negative, negative_finding, negatives, append_issue.
  destruct (column col df) as [c|]; reflexivity.
Qed.

Lemma fold_check_negative (lib : library) (df : DataFrame) (cols : list string)
  (q : quality) :
  let hits := filter (fun col => (0 <? negatives lib df col)%nat) cols in
  fold_left (check_negative lib df) cols q
  = (match hits with [] => fst q | _ => warn (fst q) end,
     (snd q ++ map (negative_finding lib df) hits)%list).
Proof.
  revert q. induction cols as [|col cols IH]; intros [s l]; simpl.
  - now rewrite app_nil_r.
  - rewrite check_negative_unfold.
    destruct (0 <? negatives lib df col)%nat; rewrite IH; simpl.
    + rewrite <- app_assoc. simpl.
      destruct (filter _ cols); now rewrite ?warn_idem.
    + reflexivity.
Qed.

(** [C5], amended.  The non-negativity check looks at new_cases, new_deaths,
    total_cases and total_deaths, in the columns that are in the schema; in
    each it counts the entries whose numeric value, a missing one taken as 0,
    is below 0; for each column whose count is positive it appends the finding
    "Negative values detected in <column>: <count>", one per column in that
    order, and raises an OK status to WARNING.  A table whose new_deaths
    column holds exactly one negative entry gets the finding
    "Negative values detected in new_deaths: 1". *)
Theorem C5_non_negativity (lib : library) (df : DataFrame) (q : quality) :
  numeric_columns = ["new_cases"; "new_deaths"; "total_cases"; "total_deaths"]
  /\ (forall col, has_column col df = false -> negatives lib df col = 0%nat)
  /\ (forall col c, column col df = Some c ->
        negatives lib df col
        = List.length (filter (fun x => negative (to_numeric_elem lib x)) c))
  /\ (forall o, negative o = true <-> exists v, o = Some v /\ (v < 0)%Q)
  /\ snd (check_negatives lib df q)
     = (snd q ++ map (negative_finding lib df) (offending lib df))%list
  /\ fst (check_negatives lib df q)
     = match offending lib df with [] => fst q | _ => warn (fst q) end
  /\ (offending lib df <> [] ->
      status_le WARNING (fst (check_negatives lib df q)))
  /\ (negatives lib df "new_deaths" = 1%nat ->
      In "Negative values detected in new_deaths: 1"
         (snd (check_negatives lib df q))
      /\ status_le WARNING (fst (check_negatives lib df q))).
Proof.
  pose proof (fold_check_negative lib df numeric_columns q) as Hfold.
  cbv zeta in Hfold. fold (offending lib df) in Hfold.
  fold (check_negatives lib df q) in Hfold.
  assert (Hwarn : offending lib df <> [] ->
                  status_le WARNING (fst (check_negatives lib df q))).
  { intros Hne. rewrite Hfold. simpl.
    destruct (offending lib df); [congruence | apply status_le_warn]. }
  split; [reflexivity|].
  split.
  { intros col Hc. unfold negatives, column.
    apply mem_false, index_of_None in Hc. unfold has_column in *.
    now rewrite Hc. }
  split.
  { intros col c Hc. unfold negatives. now rewrite Hc. }
  split; [apply negative_spec|].
  split; [now rewrite Hfold|]. split; [now rewrite Hfold|].
  split; [assumption|].
  intros H1.
  assert (Hin : In "new_deaths" (offending lib df)).
  { unfold offending. apply filter_In. split.
    - unfold numeric_columns. simpl. tauto.
    - rewrite H1. reflexivity. }
  split.
  - rewrite Hfold. simpl. apply in_or_app. right.
    apply in_map_iff. exists "new_deaths". split; [|assumption].
    unfold negative_finding. now rewrite H1.
  - apply Hwarn. intros E. now rewrite E in Hin.
Qed.

Lemma C5_non_negativity_witness :
  In "Negative values detected in new_deaths: 1"
     (snd (check_negatives reference_library
             (normalize reference_library sample_negative) (OK, [])))
  /\ status_le WARNING
       (fst (check_negatives reference_library
               (normalize reference_library sample_negative) (OK, []))).
Proof.
  apply (C5_non_negativity reference_library
           (normalize reference_library sample_negative) (OK, [])).
  reflexivity.
Defined.

(** [C5] as the specification words it fails: with new_deaths at -5 in one
    row, the finding the check records is not the text "new_deaths: 1". *)
Lemma C5_finding_text_counterexample :
  let df := normalize reference_library sample_negative in
  negatives reference_library df "new_deaths" = 1%nat
  /\ quality_checks reference_library (mkdate 2023 1 10) df
     = (WARNING, ["Negative values detected in new_deaths: 1"])
  /\ ~ In "new_deaths: 1"
        (snd (quality_checks reference_library (mkdate 2023 1 10) df)).
Proof.
  cbv zeta. split; [reflexivity|]. split; [reflexivity|].
  intros [H|[]]. discriminate H.
Qed.

(** ** Timeliness *)

Lemma date_compare_eq (a b : date) : date_compare a b = Eq -> a = b.
Proof.
  destruct a as [y m d], b as [y' m' d']. unfold date_compare. simpl.
  destruct (Z.compare_spec y y'); try discriminate.
  destruct (Z.compare_spec m m'); try discriminate.
  destruct (Z.compare_spec d d'); try discriminate.
  intros _. congruence.
Qed.

Lemma ts_leb_refl (a : Timestamp) : ts_leb a a = true.
Proof.
  destruct a as [[y m d] n]. unfold ts_leb, ts_compare, date_compare. simpl.
  now rewrite !Z.compare_refl.
Qed.

Lemma ts_leb_total (a b : Timestamp) : ts_leb a b = false -> ts_leb b a = true.
Proof.
  destruct a as [[y m d] n], b as [[y' m' d'] n'].
  unfold ts_leb, ts_compare, date_compare. simpl.
  destruct (Z.compare_spec y y'), (Z.compare_spec y' y); try lia;
    try discriminate; try reflexivity.
  destruct (Z.compare_spec m m'), (Z.compare_spec m' m); try lia;
    try discriminate; try reflexivity.
  destruct (Z.compare_spec d d'), (Z.compare_spec d' d); try lia;
    try discriminate; try reflexivity.
  destruct (Z.compare_spec n n'), (Z.compare_spec n' n); try lia;
    try discriminate; try reflexivity.
Qed.

Lemma ts_leb_trans (a b c : Timestamp) :
  ts_leb a b = true -> ts_leb b c = true -> ts_leb a c = true.
Proof.
  destruct a as [[y m d] n], b as [[y' m' d'] n'], c as [[y2 m2 d2] n2].
  unfold ts_leb, ts_compare, date_compare. simpl.
  destruct (Z.compare_spec y y'), (Z.compare_spec y' y2), (Z.compare_spec y y2);
    try lia; try discriminate; try reflexivity;
  destruct (Z.compare_spec m m'), (Z.compare_spec m' m2), (Z.compare_spec m m2);
    try lia; try discriminate; try reflexivity;
  destruct (Z.compare_spec d d'), (Z.compare_spec d' d2), (Z.compare_spec d d2);
    try lia; try discriminate; try reflexivity;
  destruct (Z.compare_spec n n'), (Z.compare_spec n' n2), (Z.compare_spec n n2);
    try lia; try discriminate; try reflexivity.
Qed.

Lemma ts_max_cases (a b : Timestamp) :
  (ts_max a b = a \/ ts_max a b = b)
  /\ ts_leb a (ts_max a b) = true /\ ts_leb b (ts_max a b) = true.
Proof.
  unfold ts_max. destruct (ts_leb a b) eqn:E.
  - repeat split; auto using ts_leb_refl.
  - repeat split; auto using ts_leb_refl, ts_leb_total.
Qed.

(** [column_max] returns a timestamp of the column that no other exceeds. *)
Lemma column_max_some (col : list cell) (t : Timestamp) :
  column_max col = Some t ->
  In (Time t) col /\ forall t', In (Time t') col -> ts_leb t' t = true.
Proof.
  revert t. induction col as [|c col IH]; intros t; simpl; [discriminate|].
  assert (Hskip : (forall u, c <> Time u) -> column_max col = Some t ->
                  (c = Time t \/ In (Time t) col)
                  /\ forall t', c = Time t' \/ In (Time t') col ->
                                ts_leb t' t = true).
  { intros Hc H. destruct (IH t H) as [Hin Hmax]. split; [now right|].
    intros t' [E|Hin']; [now apply Hc in E | now apply Hmax]. }
  destruct c as [|b|q|s|u]; try (apply Hskip; discriminate).
  destruct (column_max col) as [m|] eqn:Em.
  - intros [= <-]. destruct (IH m eq_refl) as [Hin Hmax].
    destruct (ts_max_cases u m) as ([E|E] & Hu & Hm).
    + rewrite E in *. split; [now left|].
      intros t' [[= <-]|Hin']; [apply ts_leb_refl|].
      eapply ts_leb_trans; [now apply Hmax | exact Hm].
    + rewrite E in *. split; [now right|].
      intros t' [[= <-]|Hin']; [exact Hu | now apply Hmax].
  - intros [= <-]. split; [now left|].
    intros t' [[= <-]|Hin']; [apply ts_leb_refl|].
    exfalso. clear IH Hskip. induction col as [|c col IHc]; [easy|].
    simpl in Em. destruct Hin' as [->|Hin'].
    + destruct (column_max col); discriminate.
    + apply IHc; [|assumption].
      destruct c; try assumption. destruct (column_max col); discriminate.
Qed.

Lemma column_max_none (col : list cell) :
  column_max col = None <-> forall t, ~ In (Time t) col.
Proof.
  split.
  - induction col as [|c col IH]; simpl; [tauto|].
    intros H t [->|Hin].
    + destruct (column_max col); discriminate.
    + apply (IH) with (t := t); [|assumption].
      destruct c; try assumption. destruct (column_max col); discriminate.
  - intros H. destruct (column_max col) as [t|] eqn:E; [|reflexivity].
    apply column_max_some in E. destruct E as [Hin _]. now apply H in Hin.
Qed.

(** [C6] The timeliness check looks at the latest timestamp of the date
    column.  When there is one, the check appends the finding that states the
    gap in days and raises an OK status to WARNING exactly when the gap between
    the current date and that timestamp's date exceeds 30 days, and changes
    nothing otherwise.  When the table has no date column or no valid date in
    it, the check changes nothing, whatever the current date. *)
Theorem C6_timeliness (today : date) (df : DataFrame) (q : quality) :
  (forall t, latest_timestamp df = Some t ->
     let gap := days_between today (ts_date t) in
     (exists col, column "date" df = Some col /\ In (Time t) col
                  /\ forall t', In (Time t') col -> ts_leb t' t = true)
     /\ (30 < gap ->
         check_timeliness today df q
         = (warn (fst q),
            (snd q ++ [("Data timeliness warning: latest record is "
                        ++ str_of_Z gap ++ " days old.")%string])%list)
         /\ status_le WARNING (fst (check_timeliness today df q)))
     /\ (gap <= 30 -> check_timeliness today df q = q))
  /\ (latest_timestamp df = None <->
      forall col, column "date" df = Some col -> forall t, ~ In (Time t) col)
  /\ (latest_timestamp df = None -> check_timeliness today df q = q).
Proof.
  split; [|split].
  - intros t Ht gap. split; [|split].
    + unfold latest_timestamp in Ht.
      destruct (column "date" df) as [col|]; [|discriminate].
      exists col. split; [reflexivity|]. now apply column_max_some.
    + intros Hgap. unfold check_timeliness. rewrite Ht. cbv zeta. fold gap.
      apply Z.ltb_lt in Hgap. rewrite Hgap. split; [reflexivity|].
      apply status_le_warn.
    + intros Hgap. unfold check_timeliness. rewrite Ht. cbv zeta. fold gap.
      apply Z.ltb_ge in Hgap. now rewrite Hgap.
  - unfold latest_timestamp. destruct (column "date" df) as [col|].
    + rewrite column_max_none. split.
      * intros H col' [= <-]. exact H.
      * intros H. now apply H.
    + split; [discriminate | reflexivity].
  - intros H. unfold check_timeliness. now rewrite H.
Qed.

Lemma C6_timeliness_witness :
  check_timeliness (mkdate 2023 3 1) (normalize reference_library sample_clean)
    (OK, [])
  = (WARNING, ["Data timeliness warning: latest record is 58 days old."]).
Proof.
  destruct (C6_timeliness (mkdate 2023 3 1)
              (normalize reference_library sample_clean) (OK, []))
    as (H & _).
  destruct (H (mkts (mkdate 2023 1 2) 0) eq_refl) as (_ & Hstale & _).
  apply Hstale. reflexivity.
Defined.

(** ** The pass up to the filters *)

Lemma page_header_eq (w : world) :
  page_header w = (fst (page_header w), Done (api_base_of w, timeout_of w)).
Proof. reflexivity. Qed.

Lemma load_metadata_answer (w : world) (meta : metadata) :
  metadata_reply w = Answer meta ->
  load_metadata w (api_base_of w) (timeout_of w)
  = ([Request (api_base_of w ++ "/metadata") [] (timeout_of w)], Done meta).
Proof. intros H. unfold load_metadata, fetch_metadata, api_get. now rewrite H. Qed.

Lemma metadata_date_done (lib : library) (v : option cell) (key : string)
  (d : date) :
  snd (metadata_date lib v key) = Done d -> metadata_date lib v key = ([], Done d).
Proof.
  unfold metadata_date. destruct v as [c|]; [|discriminate].
  destruct (to_datetime_elem lib [c] c); [|discriminate].
  cbn. now intros [= <-].
Qed.

(** With the metadata loaded and its two dates read, a pass is the preamble
    followed by the filters and the dashboard. *)
Lemma run_after_metadata (lib : library) (w : world) (meta : metadata)
  (lo hi : date) :
  metadata_reply w = Answer meta ->
  snd (metadata_date lib (min_date meta) "min_date") = Done lo ->
  snd (metadata_date lib (max_date meta) "max_date") = Done hi ->
  run lib w
  = bind (preamble w, Done tt)
      (fun _ => bind (sidebar_filters w meta lo hi)
                  (dashboard lib w (api_base_of w) (timeout_of w))).
Proof.
  intros Hm Hlo Hhi. unfold run.
  rewrite page_header_eq, bind_done. cbv zeta. cbn [fst snd].
  rewrite (load_metadata_answer w meta Hm), bind_done.
  rewrite (metadata_date_done _ _ _ _ Hlo), bind_done.
  rewrite (metadata_date_done _ _ _ _ Hhi), bind_done.
  unfold preamble. rewrite bind_done. cbn [fst snd app].
  now rewrite <- app_assoc.
Qed.

Lemma requests_app (a b : list event) :
  requests (a ++ b) = (requests a ++ requests b)%list.
Proof. apply flat_map_app. Qed.

Lemma requests_preamble (w : world) :
  requests (preamble w) = [((api_base_of w ++ "/metadata")%string, [])].
Proof. reflexivity. Qed.

Lemma no_content_app (a b : list event) :
  no_content (a ++ b) = no_content a && no_content b.
Proof. apply forallb_app. Qed.

Lemma no_content_preamble (w : world) : no_content (preamble w) = true.
Proof. reflexivity. Qed.

(** ** Guards of the sidebar *)

Lemma sidebar_no_location (w : world) (meta : metadata) (lo hi : date) :
  locations_of meta (level_of w meta) = [] ->
  sidebar_filters w meta lo hi
  = ([Ui Sidebar (Selectbox "Location Level" (or_default (levels meta) ["Country"])
                    (Some 0%nat));
      Ui Sidebar (Text Warning no_location)], Stopped).
Proof.
  intros H. unfold sidebar_filters. cbv zeta.
  unfold level_of in H. rewrite H. reflexivity.
Qed.

Lemma sidebar_invalid_range (w : world) (meta : metadata) (lo hi s e : date) :
  locations_of meta (level_of w meta) <> [] ->
  or_default (date_input w) [lo; hi] = [s; e] ->
  date_gtb s e = true ->
  exists d,
    default_loc (locations_of meta (level_of w meta)) = Some d
    /\ sidebar_filters w meta lo hi
       = ([Ui Sidebar (Selectbox "Location Level"
                         (or_default (levels meta) ["Country"]) (Some 0%nat));
           Ui Sidebar (Selectbox "Location" (locations_of meta (level_of w meta))
                         (index_of d (locations_of meta (level_of w meta))));
           Ui Sidebar (DateInput "Date Range" [lo; hi] lo hi);
           Ui Sidebar (Text Error invalid_range)], Stopped).
Proof.
  intros Hne Hd Hgt.
  destruct (default_loc_some _ Hne) as [d [Hdef _]].
  exists d. split; [assumption|].
  unfold sidebar_filters. cbv zeta. fold (level_of w meta).
  destruct (locations_of meta (level_of w meta)) as [|l0 ls] eqn:El;
    [congruence|].
  rewrite Hdef, Hd, Hgt. reflexivity.
Qed.

(** [C10] When the selected level has no entry in locations_by_level, or an
    empty one, the pass ends by [st.stop()] right after the warning in the
    sidebar: it raises nothing, the only request of the pass is the metadata
    one that precedes the level widget (no summary or cases request follows),
    and no content section is drawn. *)
Theorem C10_level_without_locations (lib : library) (w : world)
  (meta : metadata) (lo hi : date) :
  metadata_reply w = Answer meta ->
  snd (metadata_date lib (min_date meta) "min_date") = Done lo ->
  snd (metadata_date lib (max_date meta) "max_date") = Done hi ->
  locations_of meta (level_of w meta) = [] ->
  run lib w
  = ((preamble w
      ++ [Ui Sidebar (Selectbox "Location Level"
                        (or_default (levels meta) ["Country"]) (Some 0%nat));
          Ui Sidebar (Text Warning no_location)])%list, Stopped)
  /\ requests (fst (run lib w)) = [((api_base_of w ++ "/metadata")%string, [])]
  /\ no_content (fst (run lib w)) = true.
Proof.
  intros Hm Hlo Hhi Hl.
  assert (Hrun : run lib w
    = ((preamble w
        ++ [Ui Sidebar (Selectbox "Location Level"
                          (or_default (levels meta) ["Country"]) (Some 0%nat));
            Ui Sidebar (Text Warning no_location)])%list, Stopped)).
  { rewrite (run_after_metadata lib w meta lo hi Hm Hlo Hhi), bind_done.
    now rewrite (sidebar_no_location w meta lo hi Hl), bind_stopped. }
  split; [assumption|]. rewrite Hrun. cbn [fst]. split.
  - now rewrite requests_app, requests_preamble.
  - now rewrite no_content_app, no_content_preamble.
Qed.

Lemma C10_level_without_locations_witness :
  snd (run reference_library
         {| api_base_input := None; timeout_input := None;
            metadata_reply := Answer sample_metadata;
            level_input := Some 1%nat; location_input := None;
            date_input := None;
            summary_reply := Failure "unused";
            cases_reply := Failure "unused";
            today := mkdate 2023 1 10 |}) = Stopped.
Proof.
  refine (f_equal snd (proj1 (C10_level_without_locations reference_library _
            sample_metadata (mkdate 2020 1 1) (mkdate 2023 1 1) _ _ _ _)));
    reflexivity.
Defined.

(** [C2] When the range picker returns a start date later than the end date,
    the pass ends by [st.stop()] right after the error in the sidebar: the
    only request of the pass is the metadata one that precedes the filters,
    neither the summary nor the cases request is issued, and no content
    section is drawn. *)
Theorem C2_invalid_range (lib : library) (w : world) (meta : metadata)
  (lo hi s e : date) :
  metadata_reply w = Answer meta ->
  snd (metadata_date lib (min_date meta) "min_date") = Done lo ->
  snd (metadata_date lib (max_date meta) "max_date") = Done hi ->
  locations_of meta (level_of w meta) <> [] ->
  or_default (date_input w) [lo; hi] = [s; e] ->
  date_compare s e = Gt ->
  snd (run lib w) = Stopped
  /\ (exists before,
        fst (run lib w)
        = (preamble w ++ before ++ [Ui Sidebar (Text Error invalid_range)])%list
        /\ requests before = [])
  /\ requests (fst (run lib w)) = [((api_base_of w ++ "/metadata")%string, [])]
  /\ no_content (fst (run lib w)) = true.
Proof.
  intros Hm Hlo Hhi Hne Hd Hgt.
  assert (Hgtb : date_gtb s e = true) by (unfold date_gtb; now rewrite Hgt).
  destruct (sidebar_invalid_range w meta lo hi s e Hne Hd Hgtb) as (d & _ & Hs).
  rewrite (run_after_metadata lib w meta lo hi Hm Hlo Hhi), bind_done.
  rewrite Hs, bind_stopped. cbn [fst snd].
  split; [reflexivity|]. split; [|split].
  - eexists [_; _; _]. split; reflexivity.
  - now rewrite requests_app, requests_preamble.
  - now rewrite no_content_app, no_content_preamble.
Qed.

Lemma C2_invalid_range_witness :
  snd (run reference_library
         {| api_base_input := None; timeout_input := None;
            metadata_reply := Answer sample_metadata;
            level_input := None; location_input := None;
            date_input := Some [mkdate 2023 2 1; mkdate 2023 1 1];
            summary_reply := Failure "unused";
            cases_reply := Failure "unused";
            today := mkdate 2023 1 10 |}) = Stopped.
Proof.
  refine (proj1 (C2_invalid_range reference_library _
            sample_metadata (mkdate 2020 1 1) (mkdate 2023 1 1)
            (mkdate 2023 2 1) (mkdate 2023 1 1) _ _ _ _ _ _));
    try reflexivity.
  discriminate.
Defined.

Lemma C7_default_location_witness :
  exists d, default_loc ["Indonesia"; "USA"] = Some d /\ In d ["Indonesia"; "USA"].
Proof.
  destruct (C7_default_location ["Indonesia"; "USA"]) as (d & Hd & _ & _ & Hin & _).
  - discriminate.
  - exists d. split; assumption.
Defined.

(** ** The guard on an empty frame *)

Lemma sidebar_no_content (w : world) (meta : metadata) (lo hi : date) :
  no_content (fst (sidebar_filters w meta lo hi)) = true.
Proof.
  unfold sidebar_filters. cbv zeta.
  destruct (locations_of meta _) as [|l0 ls]; [reflexivity|].
  destruct (default_loc (l0 :: ls)) as [d|]; [|reflexivity].
  destruct (or_default (date_input w) [lo; hi]) as [|s [|e [|x rest]]];
    try reflexivity.
  destruct (date_gtb s e); reflexivity.
Qed.

Lemma sidebar_requests (w : world) (meta : metadata) (lo hi : date) :
  requests (fst (sidebar_filters w meta lo hi)) = [].
Proof.
  unfold sidebar_filters. cbv zeta.
  destruct (locations_of meta _) as [|l0 ls]; [reflexivity|].
  destruct (default_loc (l0 :: ls)) as [d|]; [|reflexivity].
  destruct (or_default (date_input w) [lo; hi]) as [|s [|e [|x rest]]];
    try reflexivity.
  destruct (date_gtb s e); reflexivity.
Qed.

Lemma fetch_data_answers (lib : library) (w : world) (api_base : string)
  (timeout : Z) (f : filters) (s : summary) (p : cases_payload) :
  summary_reply w = Answer s ->
  cases_reply w = Answer p ->
  fetch_data lib w api_base timeout f
  = ((([Ui Main (Spinner "Loading from API...");
        summary_request api_base timeout f;
        cases_request api_base timeout f])
      ++ (if empty (cases_frame lib p)
          then [Ui Main (Text Warning no_data)] else []))%list,
     if empty (cases_frame lib p) then Stopped
     else Done (or_default (kpi s) [], cases_frame lib p)).
Proof.
  intros Hs Hp. unfold fetch_data, fetch_summary, fetch_cases, api_get.
  rewrite Hs, Hp. cbn.
  destruct (empty (cases_frame lib p)); reflexivity.
Qed.

Lemma frame_of_no_records : frame_of_records [] = mkframe [] [].
Proof. reflexivity. Qed.

Lemma empty_payload_empty_frame (lib : library) (p : cases_payload) :
  payload_rows p = [] ->
  cases_frame lib p = mkframe [] [] /\ empty (cases_frame lib p) = true.
Proof.
  intros H. unfold cases_frame. rewrite H, frame_of_no_records.
  split; reflexivity.
Qed.

(** [C4] When the frame built from the cases payload is empty (in particular
    when the payload has no row), the pass ends by [st.stop()] right after one
    warning that says there is no data for the selection: after the two
    requests nothing else is drawn, so the KPI row, the charts, the report and
    the quality checks are all skipped. *)
Theorem C4_empty_short_circuit (lib : library) (w : world) (meta : metadata)
  (lo hi : date) (f : filters) (s : summary) (p : cases_payload) :
  metadata_reply w = Answer meta ->
  snd (metadata_date lib (min_date meta) "min_date") = Done lo ->
  snd (metadata_date lib (max_date meta) "max_date") = Done hi ->
  snd (sidebar_filters w meta lo hi) = Done f ->
  summary_reply w = Answer s ->
  cases_reply w = Answer p ->
  empty (cases_frame lib p) = true ->
  run lib w
  = ((preamble w
      ++ fst (sidebar_filters w meta lo hi)
      ++ [Ui Main (Spinner "Loading from API...");
          summary_request (api_base_of w) (timeout_of w) f;
          cases_request (api_base_of w) (timeout_of w) f;
          Ui Main (Text Warning no_data)])%list, Stopped)
  /\ no_content (fst (run lib w)) = true
  /\ (payload_rows p = [] -> empty (cases_frame lib p) = true).
Proof.
  intros Hm Hlo Hhi Hf Hs Hp He.
  assert (Hrun : run lib w
    = ((preamble w
        ++ fst (sidebar_filters w meta lo hi)
        ++ [Ui Main (Spinner "Loading from API...");
            summary_request (api_base_of w) (timeout_of w) f;
            cases_request (api_base_of w) (timeout_of w) f;
            Ui Main (Text Warning no_data)])%list, Stopped)).
  { rewrite (run_after_metadata lib w meta lo hi Hm Hlo Hhi), bind_done.
    rewrite (surjective_pairing (sidebar_filters w meta lo hi)), Hf, bind_done.
    unfold dashboard.
    rewrite (fetch_data_answers lib w _ _ f s p Hs Hp), He, bind_stopped.
    reflexivity. }
  split; [assumption|]. split.
  - rewrite Hrun. cbn [fst].
    rewrite !no_content_app, no_content_preamble, sidebar_no_content.
    reflexivity.
  - intros H. now apply empty_payload_empty_frame.
Qed.

Lemma C4_empty_short_circuit_witness :
  snd (run reference_library (sample_world {| cases_data := Some [] |}))
  = Stopped.
Proof.
  refine (f_equal snd (proj1 (C4_empty_short_circuit reference_library _
            sample_metadata (mkdate 2020 1 1) (mkdate 2023 1 1)
            {| level := Some "Country"; location := Some "Indonesia";
               start_date := mkdate 2020 1 1; end_date := mkdate 2023 1 1 |}
            {| kpi := Some [("total_cases", Num 5)] |}
            {| cases_data := Some [] |} _ _ _ _ _ _ _)));
    reflexivity.
Defined.

(** ** Requests of a pass *)

Lemma requests_bind {A B : Type} (m : script A) (k : A -> script B) :
  requests (fst (bind m k))
  = (requests (fst m)
     ++ match snd m with
        | Done a => requests (fst (k a))
        | _ => []
        end)%list.
Proof.
  destruct m as [t [a| |e]]; unfold bind; cbn [fst snd].
  - apply requests_app.
  - now rewrite app_nil_r.
  - now rewrite app_nil_r.
Qed.

Lemma ui_only_bind {A B : Type} (m : script A) (k : A -> script B) :
  ui_only m -> (forall a, ui_only (k a)) -> ui_only (bind m k).
Proof.
  unfold ui_only. intros Hm Hk. rewrite requests_bind, Hm.
  destruct (snd m); [apply Hk | reflexivity | reflexivity].
Qed.

Lemma ui_only_emit_all (c : container) (ws : list widget) :
  ui_only (emit_all c ws).
Proof.
  unfold ui_only, emit_all. cbn [fst]. induction ws; [reflexivity | assumption].
Qed.

Lemma ui_only_sorted (df : DataFrame) : ui_only (sorted_by_date df).
Proof. unfold sorted_by_date. destruct (sort_values "date" df); reflexivity. Qed.

Ltac ui_only_step :=
  first
    [ apply ui_only_emit_all
    | apply ui_only_sorted
    | apply ui_only_bind; [|intros ?]
    | reflexivity ].

Lemma ui_only_kpis (lib : library) (kpi : list (string * cell)) :
  ui_only (executive_kpis lib kpi).
Proof. reflexivity. Qed.

Lemma ui_only_overview (lib : library) (f : filters) (df : DataFrame) :
  ui_only (tab_overview lib f df).
Proof.
  unfold tab_overview. cbv zeta.
  apply ui_only_bind; [reflexivity | intros _].
  apply ui_only_bind; [|intros _].
  { destruct (has_column "new_cases" _); repeat ui_only_step. }
  apply ui_only_bind; [|intros _].
  { destruct (has_column "new_deaths" _); repeat ui_only_step. }
  do 5 (apply ui_only_bind; [reflexivity | intros _]).
  apply ui_only_bind; [|intros _].
  { destruct (latest_timestamp _); reflexivity. }
  repeat ui_only_step.
Qed.

Lemma ui_only_report (lib : library) (f : filters) (df : DataFrame) :
  ui_only (tab_report lib f df).
Proof. unfold tab_report. cbv zeta. repeat ui_only_step. Qed.

Lemma ui_only_gov (lib : library) (now : date) (df : DataFrame) :
  ui_only (tab_gov lib now df).
Proof. unfold tab_gov. cbv zeta. repeat ui_only_step. Qed.

(** The requests of the dashboard: the summary one, then the cases one unless
    the summary request failed. *)
Lemma dashboard_requests (lib : library) (w : world) (api_base : string)
  (timeout : Z) (f : filters) :
  requests (fst (dashboard lib w api_base timeout f))
  = requests
      (summary_request api_base timeout f
       :: match summary_reply w with
          | Answer _ => [cases_request api_base timeout f]
          | Failure _ => []
          end).
Proof.
  unfold dashboard. rewrite requests_bind.
  unfold fetch_data, fetch_summary, fetch_cases, api_get.
  destruct (summary_reply w) as [s|msg]; [|reflexivity].
  destruct (cases_reply w) as [p|msg]; [|reflexivity].
  cbn -[cases_frame empty]. cbv zeta.
  destruct (empty (cases_frame lib p)); [reflexivity|].
  cbn [fst snd app requests flat_map].
  repeat f_equal.
  change (ui_only
            (executive_kpis lib (or_default (kpi s) []) ;;
             emit Main (Tabs ["📈 Overview"; "🧾 Report"; "🛡 Governance"]) ;;
             df <- tab_overview lib f (cases_frame lib p) ;;
             tab_report lib f df ;;
             tab_gov lib (today w) df ;;
             emit Main (Text Caption closing_tip))).
  apply ui_only_bind; [apply ui_only_kpis | intros _].
  apply ui_only_bind; [reflexivity | intros _].
  apply ui_only_bind; [apply ui_only_overview | intros df].
  apply ui_only_bind; [apply ui_only_report | intros _].
  apply ui_only_bind; [apply ui_only_gov | intros _].
  reflexivity.
Qed.

Lemma requests_In (t : list event) (url : string)
  (params : list (string * pvalue)) (timeout : Z) :
  In (Request url params timeout) t -> In (url, params) (requests t).
Proof.
  intros H. unfold requests. apply in_flat_map.
  exists (Request url params timeout). split; [assumption | now left].
Qed.

(** Every pass asks for the metadata first; whatever it asks next is what the
    dashboard asks. *)
Lemma run_requests (lib : library) (w : world) :
  exists rest,
    requests (fst (run lib w))
    = ((api_base_of w ++ "/metadata")%string, []) :: rest
    /\ (rest = []
        \/ exists f,
             rest = requests (fst (dashboard lib w (api_base_of w)
                                     (timeout_of w) f))).
Proof.
  unfold run. rewrite page_header_eq, bind_done. cbv zeta. cbn [fst snd].
  rewrite requests_app.
  change (requests (fst (page_header w))) with (@nil (string * list (string * pvalue))).
  cbn [app]. rewrite requests_bind.
  unfold load_metadata, fetch_metadata, api_get.
  destruct (metadata_reply w) as [meta|msg]; cbn [fst snd];
    [|eexists; split; [reflexivity | now left]].
  cbn [requests flat_map app].
  match goal with
  | |- exists rest, _ :: ?t = _ :: rest /\ _ =>
      exists t; split; [reflexivity|]
  end.
  rewrite requests_bind.
  unfold metadata_date.
  destruct (min_date meta) as [c|]; [|now left].
  destruct (to_datetime_elem lib [c] c) as [lo|]; [|now left].
  cbn [fst snd requests flat_map app ret].
  rewrite requests_bind.
  destruct (max_date meta) as [c'|]; [|now left].
  destruct (to_datetime_elem lib [c'] c') as [hi|]; [|now left].
  cbn [fst snd requests flat_map app ret ts_date].
  rewrite requests_bind, sidebar_requests. cbn [app].
  destruct (snd (sidebar_filters w meta _ _)) as [f| |e]; [|now left|now left].
  right. now exists f.
Qed.

Lemma in_bind_l {A B : Type} (m : script A) (k : A -> script B) (e : event) :
  In e (fst m) -> In e (fst (bind m k)).
Proof.
  intros H. unfold bind. destruct (snd m); cbn [fst]; [|assumption..].
  apply in_or_app. now left.
Qed.

Lemma in_bind_r {A B : Type} (m : script A) (k : A -> script B) (a : A)
  (e : event) :
  snd m = Done a -> In e (fst (k a)) -> In e (fst (bind m k)).
Proof.
  intros Hm H. unfold bind. rewrite Hm. cbn [fst]. apply in_or_app. now right.
Qed.

(** [C9], amended.  The request to /cases carries the five parameters of
    [fetch_cases], whose limit is the caller's when given and 6000 otherwise.
    The dashboard always gives 8000: a request of a pass that carries a limit
    carries limit=8000, and a pass whose summary request is answered issues
    the cases request with limit=8000. *)
Theorem C9_cases_limit (lib : library) :
  (forall api_base lv loc s e timeout limit r,
     fst (fetch_cases lib api_base lv loc s e timeout limit r)
     = [Request (api_base ++ "/cases")
          [("level", pstr lv); ("location", pstr loc);
           ("start", PStr (strftime_ymd s)); ("end", PStr (strftime_ymd e));
           ("limit", PInt (match limit with Some n => n | None => 6000 end))]
          timeout])
  /\ (forall w url params timeout v,
        In (Request url params timeout) (fst (run lib w)) ->
        dict_get "limit" params = Some v -> v = PInt 8000)
  /\ (forall w meta lo hi f s,
        metadata_reply w = Answer meta ->
        snd (metadata_date lib (min_date meta) "min_date") = Done lo ->
        snd (metadata_date lib (max_date meta) "max_date") = Done hi ->
        snd (sidebar_filters w meta lo hi) = Done f ->
        summary_reply w = Answer s ->
        In (cases_request (api_base_of w) (timeout_of w) f) (fst (run lib w))).
Proof.
  split; [|split].
  - intros. unfold fetch_cases, api_get.
    destruct r; destruct limit; reflexivity.
  - intros w url params timeout v Hin Hv.
    apply requests_In in Hin.
    destruct (run_requests lib w) as (rest & Hreq & Hrest).
    rewrite Hreq in Hin. destruct Hin as [[= <- <-]|Hin]; [discriminate|].
    destruct Hrest as [->|[f ->]]; [contradiction|].
    rewrite dashboard_requests in Hin.
    destruct Hin as [[= <- <-]|Hin]; [discriminate|].
    destruct (summary_reply w); [|contradiction].
    destruct Hin as [[= <- <-]|[]].
    cbn in Hv. congruence.
  - intros w meta lo hi f s Hm Hlo Hhi Hf Hs.
    rewrite (run_after_metadata lib w meta lo hi Hm Hlo Hhi), bind_done.
    rewrite (surjective_pairing (sidebar_filters w meta lo hi)), Hf, bind_done.
    cbn [fst]. apply in_or_app. right. apply in_or_app. right.
    unfold dashboard. apply in_bind_l. unfold fetch_data.
    apply (in_bind_r _ _ tt); [reflexivity|].
    apply (in_bind_r _ _ s);
      [unfold fetch_summary, api_get; now rewrite Hs|].
    apply in_bind_l. unfold fetch_cases. apply in_bind_l. now left.
Qed.

Lemma C9_cases_limit_witness :
  In (cases_request default_api_base 10
        {| level := Some "Country"; location := Some "Indonesia";
           start_date := mkdate 2020 1 1; end_date := mkdate 2023 1 1 |})
     (fst (run reference_library (sample_world sample_clean))).
Proof.
  refine (proj2 (proj2 (C9_cases_limit reference_library))
            (sample_world sample_clean) sample_metadata
            (mkdate 2020 1 1) (mkdate 2023 1 1) _
            {| kpi := Some [("total_cases", Num 5)] |} _ _ _ _ _);
    reflexivity.
Defined.

(** [C9] as the specification words it fails: a caller of [fetch_cases] that
    leaves the limit out sends limit=6000, not limit=8000. *)
Lemma C9_default_limit_counterexample :
  let sent := fst (fetch_cases reference_library "http://localhost:8000/api"
                     (Some "Country") (Some "Indonesia")
                     (mkdate 2020 1 1) (mkdate 2023 1 1) 10 None
                     (Answer sample_clean)) in
  sent = [Request "http://localhost:8000/api/cases"
            [("level", PStr "Country"); ("location", PStr "Indonesia");
             ("start", PStr "2020-01-01"); ("end", PStr "2023-01-01");
             ("limit", PInt 6000)] 10]
  /\ ~ (exists url params timeout,
          In (Request url params timeout) sent
          /\ dict_get "limit" params = Some (PInt 8000)).
Proof.
  cbv zeta. split; [reflexivity|].
  intros (url & params & timeout & Hin & Hl).
  destruct Hin as [[= <- <- <-]|[]]. discriminate Hl.
Qed.

(** ** Frames *)

Lemma index_of_lt (x : string) (l : list string) (i : nat) :
  index_of x l = Some i -> (i < List.length l)%nat.
Proof.
  intros H. apply index_of_nth_error in H.
  apply nth_error_Some. congruence.
Qed.

Lemma index_of_inj (x y : string) (l : list string) (i : nat) :
  index_of x l = Some i -> index_of y l = Some i -> x = y.
Proof.
  intros Hx Hy. apply index_of_nth_error in Hx, Hy. congruence.
Qed.

Lemma has_column_index (name : string) (df : DataFrame) :
  has_column name df = true <-> exists j, index_of name (columns df) = Some j.
Proof.
  unfold has_column. rewrite mem_In. split.
  - apply index_of_In.
  - intros [j Hj]. eapply nth_error_In, index_of_nth_error, Hj.
Qed.

Lemma nth_replace_nth_same (j : nat) (v : cell) (r : list cell) :
  (j < List.length r)%nat -> nth j (replace_nth j v r) NA = v.
Proof.
  revert j. induction r as [|c r IH]; intros [|j]; simpl; intros H;
    try lia; [reflexivity|]. apply IH. lia.
Qed.

Lemma nth_replace_nth_other (j k : nat) (v : cell) (r : list cell) :
  j <> k -> nth k (replace_nth j v r) NA = nth k r NA.
Proof.
  revert j k. induction r as [|c r IH]; intros [|j] [|k] H; simpl;
    try reflexivity; try congruence.
  apply IH. congruence.
Qed.

Lemma length_replace_nth (j : nat) (v : cell) (r : list cell) :
  List.length (replace_nth j v r) = List.length r.
Proof.
  revert j. induction r as [|c r IH]; intros [|j]; simpl; congruence.
Qed.

Lemma map_combine_map {A B C : Type} (F : A * B -> C) (h : A -> B)
  (l : list A) :
  map F (combine l (map h l)) = map (fun x => F (x, h x)) l.
Proof. induction l as [|x l IH]; simpl; congruence. Qed.

(** Assigning to an existing column the image of that column under [g]
    rewrites one cell in every row. *)
Lemma set_column_map (name : string) (g : cell -> cell) (df : DataFrame)
  (j : nat) :
  index_of name (columns df) = Some j ->
  column name df = Some (map (fun r => nth j r NA) (rows df))
  /\ set_column name (map g (map (fun r => nth j r NA) (rows df))) df
     = {| columns := columns df;
          rows := map (fun r => replace_nth j (g (nth j r NA)) r) (rows df) |}.
Proof.
  intros Hj. unfold column, set_column. rewrite Hj. split; [reflexivity|].
  f_equal. rewrite map_map. now rewrite map_combine_map.
Qed.

Lemma cell_at_rewritten_same (df : DataFrame) (j : nat) (g : cell -> cell)
  (i : nat) (name : string) :
  well_formed df ->
  index_of name (columns df) = Some j ->
  cell_at (rewrite_column j g df) i name = option_map g (cell_at df i name).
Proof.
  intros Hwf Hj. unfold cell_at, rewrite_column. cbn [columns rows].
  rewrite Hj, nth_error_map.
  destruct (nth_error (rows df) i) as [r|] eqn:Er; [|reflexivity].
  cbn. f_equal. apply nth_replace_nth_same.
  apply nth_error_In in Er.
  unfold well_formed in Hwf. rewrite Forall_forall in Hwf.
  rewrite (Hwf r Er). now apply (index_of_lt name).
Qed.

Lemma cell_at_rewritten_other (df : DataFrame) (j : nat) (g : cell -> cell)
  (i : nat) (name : string) :
  index_of name (columns df) <> Some j ->
  cell_at (rewrite_column j g df) i name = cell_at df i name.
Proof.
  intros Hj. unfold cell_at, rewrite_column. cbn [columns rows].
  destruct (index_of name (columns df)) as [k|]; [|reflexivity].
  rewrite nth_error_map.
  destruct (nth_error (rows df) i) as [r|]; [|reflexivity].
  cbn. f_equal. apply nth_replace_nth_other. congruence.
Qed.

Lemma well_formed_rewritten (df : DataFrame) (j : nat) (g : cell -> cell) :
  well_formed df -> well_formed (rewrite_column j g df).
Proof.
  unfold well_formed, rewrite_column. cbn [columns rows].
  intros H. apply Forall_map. eapply Forall_impl; [|exact H].
  intros r Hr. cbn beta. now rewrite length_replace_nth.
Qed.

Lemma nrows_rewritten (df : DataFrame) (j : nat) (g : cell -> cell) :
  nrows (rewrite_column j g df) = nrows df.
Proof. unfold nrows, rewrite_column. cbn [rows]. apply length_map. Qed.

(** *** The frame built from the payload *)

Lemma add_keys_incl (keys cols : list string) (k : string) :
  In k (add_keys cols keys) <-> In k cols \/ In k keys.
Proof.
  revert cols. induction keys as [|x keys IH]; intros cols; simpl; [tauto|].
  rewrite IH. destruct (mem x cols) eqn:E.
  - apply mem_In in E. split; [tauto|].
    intros [H|[<-|H]]; tauto.
  - rewrite in_app_iff. simpl. tauto.
Qed.

Lemma fold_add_keys_incl (data : list record) (cols : list string)
  (k : string) :
  In k (fold_left (fun cols r => add_keys cols (map fst r)) data cols)
  <-> In k cols \/ exists r, In r data /\ In k (map fst r).
Proof.
  revert cols. induction data as [|r data IH]; intros cols; simpl.
  - split; [tauto|]. intros [H|(r & [] & _)]. assumption.
  - rewrite IH, add_keys_incl. split.
    + intros [[H|H]|(r' & H1 & H2)]; eauto.
    + intros [H|(r' & [<-|H1] & H2)]; eauto.
Qed.

Lemma dict_get_In {V : Type} (k : string) (d : list (string * V)) (v : V) :
  dict_get k d = Some v -> In k (map fst d).
Proof.
  induction d as [|[k' v'] d IH]; simpl; [discriminate|].
  destruct (String.eqb_spec k' k); [now left | intros H; right; now apply IH].
Qed.

Lemma key_in_frame_columns (data : list record) (r : record) (k : string)
  (v : cell) :
  In r data -> dict_get k r = Some v -> In k (frame_columns data).
Proof.
  intros Hr Hk. unfold frame_columns. apply fold_add_keys_incl. right.
  exists r. split; [assumption | eapply dict_get_In, Hk].
Qed.

Lemma well_formed_frame (data : list record) :
  well_formed (frame_of_records data).
Proof.
  unfold well_formed, frame_of_records. cbn [columns rows].
  apply Forall_map, Forall_forall. intros r _. apply length_map.
Qed.

Lemma cell_at_frame (data : list record) (i : nat) (name : string)
  (r : record) :
  In name (frame_columns data) ->
  nth_error data i = Some r ->
  cell_at (frame_of_records data) i name = Some (cell_of (dict_get name r)).
Proof.
  intros Hn Hr. unfold cell_at, frame_of_records. cbn [columns rows].
  destruct (index_of_In _ _ Hn) as [j Hj]. rewrite Hj.
  rewrite (map_nth_error _ _ _ Hr). f_equal.
  pose proof (index_of_nth_error _ _ _ Hj) as Hnth.
  apply nth_error_nth.
  exact (map_nth_error (fun c => cell_of (dict_get c r)) _ _ Hnth).
Qed.

Lemma column_frame (data : list record) (name : string) (j : nat) :
  index_of name (frame_columns data) = Some j ->
  map (fun r => nth j r NA) (rows (frame_of_records data))
  = raw_column name data.
Proof.
  intros Hj. unfold frame_of_records, raw_column. cbn [rows].
  rewrite map_map. apply map_ext. intros r.
  apply nth_error_nth.
  exact (map_nth_error (fun c => cell_of (dict_get c r)) _ _
           (index_of_nth_error _ _ _ Hj)).
Qed.

(** [fetch_cases] rewrites the date column of a frame that has rows and such
    a column, and leaves any other frame alone. *)
Lemma cases_frame_eq (lib : library) (p : cases_payload) :
  let data := payload_rows p in
  let df := frame_of_records data in
  cases_frame lib p
  = match index_of "date" (frame_columns data) with
    | Some j =>
        if empty df then df
        else rewrite_column j (coerced_date lib (raw_column "date" data)) df
    | None => df
    end.
Proof.
  intros data df. unfold cases_frame. fold data. fold df.
  destruct (index_of "date" (frame_columns data)) as [j|] eqn:Ej.
  - assert (Hc : has_column "date" df = true).
    { apply has_column_index. now exists j. }
    rewrite Hc, andb_true_r.
    destruct (empty df); [reflexivity|]. cbn [negb].
    destruct (set_column_map "date"
                (coerced_date lib (raw_column "date" data)) df j Ej)
      as [Hcol Hset].
    assert (Hraw : map (fun r => nth j r NA) (rows df) = raw_column "date" data)
      by exact (column_frame data "date" j Ej).
    rewrite Hcol. unfold to_datetime. rewrite Hraw in *. exact Hset.
  - assert (Hc : has_column "date" df = false).
    { apply mem_false, index_of_None. exact Ej. }
    rewrite Hc, andb_false_r. reflexivity.
Qed.

Lemma numeric_step_eq (lib : library) (df : DataFrame) (col : string) :
  numeric_step lib df col
  = match index_of col (columns df) with
    | Some j => rewrite_column j (coerced_number lib) df
    | None => df
    end.
Proof.
  unfold numeric_step.
  destruct (index_of col (columns df)) as [j|] eqn:Ej.
  - assert (Hc : has_column col df = true).
    { apply has_column_index. now exists j. }
    rewrite Hc.
    destruct (set_column_map col (coerced_number lib) df j Ej) as [Hcol Hset].
    rewrite Hcol. exact Hset.
  - assert (Hc : has_column col df = false).
    { apply mem_false, index_of_None. exact Ej. }
    now rewrite Hc.
Qed.

Lemma numeric_step_frame (lib : library) (df : DataFrame) (col : string) :
  columns (numeric_step lib df col) = columns df
  /\ nrows (numeric_step lib df col) = nrows df
  /\ (well_formed df -> well_formed (numeric_step lib df col)).
Proof.
  rewrite numeric_step_eq.
  destruct (index_of col (columns df)) as [j|]; [|tauto].
  split; [reflexivity|]. split; [apply nrows_rewritten|].
  apply well_formed_rewritten.
Qed.

Lemma numeric_step_cell (lib : library) (df : DataFrame) (col : string)
  (i : nat) (name : string) :
  well_formed df ->
  cell_at (numeric_step lib df col) i name
  = if String.eqb name col
    then option_map (coerced_number lib) (cell_at df i name)
    else cell_at df i name.
Proof.
  intros Hwf. rewrite numeric_step_eq.
  destruct (String.eqb_spec name col) as [->|Hne].
  - destruct (index_of col (columns df)) as [j|] eqn:Ej.
    + now apply cell_at_rewritten_same.
    + unfold cell_at. now rewrite Ej.
  - destruct (index_of col (columns df)) as [j|] eqn:Ej; [|reflexivity].
    apply cell_at_rewritten_other. intros Hn.
    apply Hne. eapply index_of_inj; eassumption.
Qed.

Lemma fold_numeric_frame (lib : library) (cols : list string) (df : DataFrame) :
  columns (fold_left (numeric_step lib) cols df) = columns df
  /\ nrows (fold_left (numeric_step lib) cols df) = nrows df
  /\ (well_formed df -> well_formed (fold_left (numeric_step lib) cols df)).
Proof.
  revert df. induction cols as [|c cols IH]; intros df; simpl; [tauto|].
  destruct (IH (numeric_step lib df c)) as (H1 & H2 & H3).
  destruct (numeric_step_frame lib df c) as (G1 & G2 & G3).
  rewrite H1, H2, G1, G2. auto.
Qed.

Lemma fold_numeric_cell (lib : library) (cols : list string) (df : DataFrame)
  (i : nat) (name : string) :
  well_formed df -> NoDup cols ->
  cell_at (fold_left (numeric_step lib) cols df) i name
  = if mem name cols
    then option_map (coerced_number lib) (cell_at df i name)
    else cell_at df i name.
Proof.
  revert df. induction cols as [|c cols IH]; intros df Hwf Hnd; [reflexivity|].
  inversion Hnd as [|? ? Hnotin Hnd']; subst.
  cbn [fold_left]. rewrite IH; [|now apply numeric_step_frame|assumption].
  rewrite (numeric_step_cell lib df c i name Hwf).
  unfold mem at 2. cbn [existsb]. fold (mem name cols).
  destruct (String.eqb_spec name c) as [->|Hne].
  - apply mem_false in Hnotin. now rewrite Hnotin.
  - reflexivity.
Qed.

Lemma normalize_numeric_fold (lib : library) (df : DataFrame) :
  normalize_numeric lib df = fold_left (numeric_step lib) numeric_columns df.
Proof. reflexivity. Qed.

Lemma numeric_columns_NoDup : NoDup numeric_columns.
Proof.
  unfold numeric_columns.
  repeat (constructor; [simpl; intuition discriminate|]). constructor.
Qed.

Lemma cases_frame_shape (lib : library) (p : cases_payload) :
  columns (cases_frame lib p) = frame_columns (payload_rows p)
  /\ nrows (cases_frame lib p) = List.length (payload_rows p)
  /\ well_formed (cases_frame lib p).
Proof.
  pose proof (cases_frame_eq lib p) as H. cbv zeta in H. rewrite H.
  pose proof (well_formed_frame (payload_rows p)) as Hwf.
  assert (Hn : nrows (frame_of_records (payload_rows p))
               = List.length (payload_rows p)).
  { unfold nrows, frame_of_records. cbn [rows]. apply length_map. }
  destruct (index_of "date" _) as [j|]; [|auto].
  destruct (empty _); [auto|].
  split; [reflexivity|]. split.
  - now rewrite nrows_rewritten.
  - now apply well_formed_rewritten.
Qed.

Lemma normalize_shape (lib : library) (p : cases_payload) :
  columns (normalize lib p) = frame_columns (payload_rows p)
  /\ nrows (normalize lib p) = List.length (payload_rows p)
  /\ well_formed (normalize lib p).
Proof.
  unfold normalize. rewrite normalize_numeric_fold.
  destruct (cases_frame_shape lib p) as (H1 & H2 & H3).
  destruct (fold_numeric_frame lib numeric_columns (cases_frame lib p))
    as (G1 & G2 & G3).
  rewrite G1, G2. auto.
Qed.

Lemma empty_false_of_cell (data : list record) (i : nat) (r : record)
  (k : string) (v : cell) :
  nth_error data i = Some r -> dict_get k r = Some v ->
  empty (frame_of_records data) = false.
Proof.
  intros Hr Hk. unfold empty, nrows, frame_of_records. cbn [rows columns].
  rewrite length_map.
  pose proof (key_in_frame_columns data r k v (nth_error_In _ _ Hr) Hk) as Hin.
  destruct data as [|r0 data]; [destruct i; discriminate|].
  destruct (frame_columns (r0 :: data)); [contradiction | reflexivity].
Qed.

Lemma cases_frame_date_cell (lib : library) (p : cases_payload) (i : nat)
  (r : record) (c : cell) :
  nth_error (payload_rows p) i = Some r ->
  dict_get "date" r = Some c ->
  cell_at (cases_frame lib p) i "date"
  = Some (coerced_date lib (raw_column "date" (payload_rows p)) c).
Proof.
  intros Hr Hc.
  pose proof (cases_frame_eq lib p) as H. cbv zeta in H. rewrite H.
  pose proof (key_in_frame_columns _ r "date" c (nth_error_In _ _ Hr) Hc) as Hin.
  destruct (index_of_In _ _ Hin) as [j Hj]. rewrite Hj.
  rewrite (empty_false_of_cell _ i r "date" c Hr Hc).
  rewrite cell_at_rewritten_same;
    [|apply well_formed_frame|exact Hj].
  rewrite (cell_at_frame _ i "date" r Hin Hr), Hc. reflexivity.
Qed.

Lemma cases_frame_other_cell (lib : library) (p : cases_payload) (i : nat)
  (name : string) :
  name <> "date" ->
  cell_at (cases_frame lib p) i name
  = cell_at (frame_of_records (payload_rows p)) i name.
Proof.
  intros Hne.
  pose proof (cases_frame_eq lib p) as H. cbv zeta in H. rewrite H.
  destruct (index_of "date" _) as [j|] eqn:Ej; [|reflexivity].
  destruct (empty _); [reflexivity|].
  apply cell_at_rewritten_other. intros Hn. apply Hne.
  eapply index_of_inj; eassumption.
Qed.

(** [C3] Normalisation keeps one row per payload row and the columns of the
    payload.  In row [i], a date the conversion rejects becomes a missing
    value and a date it accepts becomes a timestamp; a numeric field the
    conversion rejects becomes a missing value and one it accepts becomes a
    number.  A payload without rows gives the frame with no row and no
    column.  [normalize] is a total function: no field value makes it fail. *)
Theorem C3_normalize (lib : library) (p : cases_payload) :
  nrows (normalize lib p) = List.length (payload_rows p)
  /\ columns (normalize lib p) = frame_columns (payload_rows p)
  /\ (forall i r, nth_error (payload_rows p) i = Some r ->
        (forall c, dict_get "date" r = Some c ->
           cell_at (normalize lib p) i "date"
           = Some (coerced_date lib (raw_column "date" (payload_rows p)) c)
           /\ (to_datetime_elem lib (raw_column "date" (payload_rows p)) c = None ->
               cell_at (normalize lib p) i "date" = Some NA))
        /\ (forall col c, In col numeric_columns -> dict_get col r = Some c ->
              cell_at (normalize lib p) i col = Some (coerced_number lib c)
              /\ (to_numeric_elem lib c = None ->
                  cell_at (normalize lib p) i col = Some NA)))
  /\ (payload_rows p = [] -> normalize lib p = mkframe [] []).
Proof.
  destruct (normalize_shape lib p) as (Hcols & Hrows & Hwf).
  destruct (cases_frame_shape lib p) as (_ & _ & Hwf0).
  split; [assumption|]. split; [assumption|]. split.
  - intros i r Hr. split.
    + intros c Hc.
      assert (Hcell : cell_at (normalize lib p) i "date"
                = Some (coerced_date lib (raw_column "date" (payload_rows p)) c)).
      { unfold normalize. rewrite normalize_numeric_fold.
        rewrite (fold_numeric_cell lib _ _ i "date" Hwf0 numeric_columns_NoDup).
        change (mem "date" numeric_columns) with false. cbv iota.
        now apply cases_frame_date_cell with (r := r). }
      split; [assumption|]. intros Hbad. rewrite Hcell.
      unfold coerced_date. now rewrite Hbad.
    + intros col c Hcol Hc.
      assert (Hcell : cell_at (normalize lib p) i col
                      = Some (coerced_number lib c)).
      { unfold normalize. rewrite normalize_numeric_fold.
        rewrite (fold_numeric_cell lib _ _ i col Hwf0 numeric_columns_NoDup).
        assert (Hm : mem col numeric_columns = true) by now apply mem_In.
        rewrite Hm.
        rewrite cases_frame_other_cell.
        2:{ unfold numeric_columns in Hcol. simpl in Hcol.
            intros ->. intuition discriminate. }
        rewrite (cell_at_frame _ i col r); [|eapply key_in_frame_columns; eauto using nth_error_In|exact Hr].
        rewrite Hc. reflexivity. }
      split; [assumption|]. intros Hbad. rewrite Hcell.
      unfold coerced_number. now rewrite Hbad.
  - intros He. unfold normalize.
    destruct (empty_payload_empty_frame lib p He) as [-> _]. reflexivity.
Qed.

Lemma C3_normalize_witness :
  cell_at (normalize reference_library
             {| cases_data := Some [[("date", Str "not a date");
                                     ("new_cases", Str "n/a")]] |}) 0 "date"
  = Some NA
  /\ cell_at (normalize reference_library
                {| cases_data := Some [[("date", Str "not a date");
                                        ("new_cases", Str "n/a")]] |}) 0
       "new_cases"
     = Some NA.
Proof.
  destruct (C3_normalize reference_library
              {| cases_data := Some [[("date", Str "not a date");
                                      ("new_cases", Str "n/a")]] |})
    as (_ & _ & H & _).
  destruct (H 0%nat _ eq_refl) as [Hd Hn]. split.
  - apply (Hd (Str "not a date")); reflexivity.
  - apply (Hn "new_cases" (Str "n/a")); [simpl; tauto | reflexivity..].
Defined.

(** ** A frame without a date column *)

Lemma never_app (p : event -> bool) (a b : list event) :
  never p (a ++ b) = never p a && never p b.
Proof. apply forallb_app. Qed.

Lemma never_bind {A B : Type} (p : event -> bool) (m : script A)
  (k : A -> script B) :
  never p (fst m) = true ->
  (forall a, snd m = Done a -> never p (fst (k a)) = true) ->
  never p (fst (bind m k)) = true.
Proof.
  intros Hm Hk. unfold bind. destruct (snd m) as [a| |e]; cbn [fst];
    [|assumption..].
  rewrite never_app, Hm. now apply Hk.
Qed.

Lemma snd_bind_done {A B : Type} (m : script A) (k : A -> script B) (a : A) :
  snd m = Done a -> snd (bind m k) = snd (k a).
Proof. intros H. unfold bind. now rewrite H. Qed.

Lemma snd_bind_raised {A B : Type} (m : script A) (k : A -> script B)
  (e : exn) :
  snd m = Raised e -> snd (bind m k) = Raised e.
Proof. intros H. unfold bind. now rewrite H. Qed.

Lemma sort_values_none (name : string) (df : DataFrame) :
  has_column name df = false -> sort_values name df = None.
Proof.
  intros H. apply mem_false, index_of_None in H.
  unfold sort_values. now rewrite H.
Qed.

Lemma normalize_numeric_columns (lib : library) (df : DataFrame) :
  columns (normalize_numeric lib df) = columns df.
Proof. rewrite normalize_numeric_fold. apply fold_numeric_frame. Qed.

(** Without a date column the Overview tab raises at its first sort. *)
Lemma tab_overview_without_date (lib : library) (f : filters) (df : DataFrame) :
  has_column "date" df = false ->
  snd (tab_overview lib f df) = Raised (KeyError "date")
  /\ never is_download (fst (tab_overview lib f df)) = true.
Proof.
  intros H. unfold tab_overview. cbv zeta.
  assert (Hs : sorted_by_date (normalize_numeric lib df)
               = ([], Raised (KeyError "date"))).
  { unfold sorted_by_date. rewrite sort_values_none; [reflexivity|].
    unfold has_column in *. now rewrite normalize_numeric_columns. }
  rewrite Hs.
  destruct (has_column "new_cases" _), (has_column "new_deaths" _),
    (latest_timestamp _); split; reflexivity.
Qed.

(** [C8] fails on the code for a frame that has rows but no date column: the
    pass raises [KeyError] in the Overview tab, at [df.sort_values("date")],
    and never reaches the download button of the Report tab. *)
Theorem C8_export_without_date_column (lib : library) (w : world)
  (meta : metadata) (lo hi : date) (f : filters) (s : summary)
  (p : cases_payload) :
  metadata_reply w = Answer meta ->
  snd (metadata_date lib (min_date meta) "min_date") = Done lo ->
  snd (metadata_date lib (max_date meta) "max_date") = Done hi ->
  snd (sidebar_filters w meta lo hi) = Done f ->
  summary_reply w = Answer s ->
  cases_reply w = Answer p ->
  empty (cases_frame lib p) = false ->
  has_column "date" (cases_frame lib p) = false ->
  snd (run lib w) = Raised (KeyError "date")
  /\ never is_download (fst (run lib w)) = true.
Proof.
  intros Hm Hlo Hhi Hf Hs Hp He Hd.
  destruct (tab_overview_without_date lib f (cases_frame lib p) Hd)
    as [Hraise Hquiet].
  rewrite (run_after_metadata lib w meta lo hi Hm Hlo Hhi), bind_done.
  rewrite (surjective_pairing (sidebar_filters w meta lo hi)), Hf, bind_done.
  unfold dashboard.
  rewrite (fetch_data_answers lib w _ _ f s p Hs Hp), He, bind_done.
  cbn [fst snd].
  assert (Hside : never is_download (fst (sidebar_filters w meta lo hi)) = true).
  { unfold sidebar_filters. cbv zeta.
    destruct (locations_of meta _) as [|l0 ls]; [reflexivity|].
    destruct (default_loc (l0 :: ls)) as [d|]; [|reflexivity].
    destruct (or_default (date_input w) [lo; hi]) as [|a [|b [|x rest]]];
      try reflexivity.
    destruct (date_gtb a b); reflexivity. }
  split.
  - rewrite (snd_bind_done _ _ tt) by reflexivity.
    rewrite (snd_bind_done _ _ tt) by reflexivity.
    now apply snd_bind_raised.
  - rewrite !never_app. rewrite Hside.
    change (never is_download (preamble w)) with true. cbn [andb].
    apply andb_true_iff. split; [reflexivity|].
    apply never_bind; [reflexivity | intros _ _].
    apply never_bind; [reflexivity | intros _ _].
    apply never_bind; [assumption|].
    intros df Hdf. rewrite Hraise in Hdf. discriminate.
Qed.

Lemma C8_export_without_date_column_witness :
  snd (run reference_library (sample_world sample_dateless))
  = Raised (KeyError "date").
Proof.
  refine (proj1 (C8_export_without_date_column reference_library _
            sample_metadata (mkdate 2020 1 1) (mkdate 2023 1 1)
            {| level := Some "Country"; location := Some "Indonesia";
               start_date := mkdate 2020 1 1; end_date := mkdate 2023 1 1 |}
            {| kpi := Some [("total_cases", Num 5)] |}
            sample_dateless _ _ _ _ _ _ _ _));
    reflexivity.
Defined.

(* ================================================================== *)
(** * Further properties: failures before the dashboard *)

Lemma run_with_metadata (lib : library) (w : world) (meta : metadata) :
  metadata_reply w = Answer meta ->
  run lib w
  = bind (preamble w, Done tt)
      (fun _ =>
         lo <- metadata_date lib (min_date meta) "min_date" ;;
         hi <- metadata_date lib (max_date meta) "max_date" ;;
         f <- sidebar_filters w meta lo hi ;;
         dashboard lib w (api_base_of w) (timeout_of w) f).
Proof.
  intros Hm. unfold run.
  rewrite page_header_eq, bind_done. cbv zeta. cbn [fst snd].
  rewrite (load_metadata_answer w meta Hm), bind_done.
  unfold preamble. rewrite bind_done. cbn [fst snd].
  now rewrite <- app_assoc.
Qed.

(** When the metadata request fails, the pass shows the remediation message
    and the text of the exception, then stops: nothing is raised, no filter is
    drawn and no other request is made (lines 85-90). *)
Theorem metadata_failure_stops (lib : library) (w : world) (msg : string) :
  metadata_reply w = Failure msg ->
  run lib w
  = ((preamble w
      ++ [Ui Main (Text Error metadata_unreachable); Ui Main (Text Code msg)])%list,
     Stopped)
  /\ requests (fst (run lib w)) = [((api_base_of w ++ "/metadata")%string, [])]
  /\ no_content (fst (run lib w)) = true.
Proof.
  intros H.
  assert (Hrun : run lib w
    = ((preamble w
        ++ [Ui Main (Text Error metadata_unreachable); Ui Main (Text Code msg)])%list,
       Stopped)).
  { unfold run. rewrite page_header_eq, bind_done. cbv zeta. cbn [fst snd].
    unfold load_metadata, fetch_metadata, api_get. rewrite H.
    unfold preamble. cbn [fst snd]. rewrite <- app_assoc. reflexivity. }
  split; [assumption|]. rewrite Hrun. cbn [fst]. split.
  - now rewrite requests_app, requests_preamble.
  - now rewrite no_content_app, no_content_preamble.
Qed.

Lemma metadata_failure_stops_witness :
  snd (run reference_library
         {| api_base_input := Some "http://localhost:8000/api/";
            timeout_input := Some 3;
            metadata_reply := Failure "Connection refused";
            level_input := None; location_input := None; date_input := None;
            summary_reply := Failure "unused"; cases_reply := Failure "unused";
            today := mkdate 2023 1 10 |}) = Stopped.
Proof.
  refine (f_equal snd (proj1 (metadata_failure_stops reference_library _
            "Connection refused" _))).
  reflexivity.
Defined.

(** Metadata that lacks [min_date] or [max_date], or holds a value that is not
    a date there, ends the pass with an uncaught exception before any filter
    is drawn (lines 92-93). *)
Theorem metadata_dates_required (lib : library) (w : world) (meta : metadata) :
  metadata_reply w = Answer meta ->
  (min_date meta = None ->
   run lib w = (preamble w, Raised (KeyError "min_date")))
  /\ (forall c, min_date meta = Some c -> to_datetime_elem lib [c] c = None ->
      run lib w = (preamble w, Raised (NotADate c)))
  /\ (forall lo, snd (metadata_date lib (min_date meta) "min_date") = Done lo ->
      (max_date meta = None ->
       run lib w = (preamble w, Raised (KeyError "max_date")))
      /\ (forall c, max_date meta = Some c -> to_datetime_elem lib [c] c = None ->
          run lib w = (preamble w, Raised (NotADate c)))).
Proof.
  intros Hm. rewrite (run_with_metadata lib w meta Hm), bind_done.
  cbn [fst snd]. unfold metadata_date, raise, ret.
  split; [|split].
  - intros ->. rewrite bind_raised. cbn [fst snd]. now rewrite app_nil_r.
  - intros c -> ->. rewrite bind_raised. cbn [fst snd]. now rewrite app_nil_r.
  - intros lo Hlo.
    destruct (min_date meta) as [c0|]; [|discriminate].
    destruct (to_datetime_elem lib [c0] c0) as [t0|]; [|discriminate].
    rewrite bind_done. cbn [fst snd app].
    split.
    + intros ->. rewrite bind_raised. cbn [fst snd]. now rewrite app_nil_r.
    + intros c -> ->. rewrite bind_raised. cbn [fst snd]. now rewrite app_nil_r.
Qed.

Lemma metadata_dates_required_witness :
  run reference_library
    (world_of (Answer metadata_without_min_date) None
       (Failure "unused") (Failure "unused"))
  = (preamble (world_of (Answer metadata_without_min_date) None
                 (Failure "unused") (Failure "unused")),
     Raised (KeyError "min_date")).
Proof.
  refine (proj1 (metadata_dates_required reference_library
                   (world_of (Answer metadata_without_min_date) None
                      (Failure "unused") (Failure "unused"))
                   metadata_without_min_date eq_refl) _).
  reflexivity.
Defined.

Lemma selectbox_default (locs : list string) (Hne : locs <> [])
  (d : string) :
  default_loc locs = Some d ->
  selectbox locs (index_of d locs) None = Some d.
Proof.
  intros Hd. destruct (default_loc_some locs Hne) as [d' [Hd' Hin]].
  rewrite Hd in Hd'. injection Hd' as <-.
  destruct (index_of_In d locs Hin) as [i Hi]. rewrite Hi. cbn.
  now apply index_of_nth_error.
Qed.

(** A pass that gets through the sidebar is the preamble, the filter widgets
    and the dashboard. *)
Lemma run_through_filters (lib : library) (w : world) (meta : metadata)
  (lo hi : date) (f : filters) :
  metadata_reply w = Answer meta ->
  snd (metadata_date lib (min_date meta) "min_date") = Done lo ->
  snd (metadata_date lib (max_date meta) "max_date") = Done hi ->
  snd (sidebar_filters w meta lo hi) = Done f ->
  run lib w
  = ((preamble w ++ fst (sidebar_filters w meta lo hi)
      ++ fst (dashboard lib w (api_base_of w) (timeout_of w) f))%list,
     snd (dashboard lib w (api_base_of w) (timeout_of w) f)).
Proof.
  intros Hm Hlo Hhi Hf.
  rewrite (run_after_metadata lib w meta lo hi Hm Hlo Hhi), bind_done.
  now rewrite (surjective_pairing (sidebar_filters w meta lo hi)), Hf, bind_done.
Qed.

(** The filters a pass hands to the dashboard satisfy the invariant of the
    selection: the level has locations, the location is one of them, and the
    start date is not after the end date (lines 100-122). *)
Theorem filters_invariant (w : world) (meta : metadata) (lo hi : date)
  (f : filters) :
  snd (sidebar_filters w meta lo hi) = Done f ->
  level f = level_of w meta
  /\ locations_of meta (level f) <> []
  /\ (forall l, location f = Some l -> In l (locations_of meta (level f)))
  /\ (location_input w = None ->
      location f = default_loc (locations_of meta (level f)))
  /\ date_compare (start_date f) (end_date f) <> Gt
  /\ (date_input w = None -> start_date f = lo /\ end_date f = hi).
Proof.
  intros H. apply sidebar_filters_done in H. cbv zeta in H.
  fold (level_of w meta) in H.
  destruct H as (Hl & Hne & (d & Hd & Hloc) & Hdates & Hgt).
  rewrite Hl. repeat split; try assumption.
  - intros l Hsome. rewrite Hloc in Hsome. eapply selectbox_member, Hsome.
  - intros Hnone. rewrite Hloc, Hnone, Hd.
    exact (selectbox_default _ Hne d Hd).
  - unfold date_gtb in Hgt. intros E. now rewrite E in Hgt.
  - rewrite H in Hdates. cbn in Hdates. congruence.
  - rewrite H in Hdates. cbn in Hdates. congruence.
Qed.

Lemma filters_invariant_witness :
  level {| level := Some "Country"; location := Some "Indonesia";
           start_date := mkdate 2020 1 1; end_date := mkdate 2023 1 1 |}
  = level_of (sample_world sample_clean) sample_metadata.
Proof.
  refine (proj1 (filters_invariant (sample_world sample_clean) sample_metadata
                   (mkdate 2020 1 1) (mkdate 2023 1 1) _ _)).
  reflexivity.
Defined.

(** While the range picker holds anything but two dates (one date, while the
    user has only picked the start), unpacking its value raises and the pass
    ends before any data is requested (lines 111-116). *)
Theorem range_unpack_error (lib : library) (w : world) (meta : metadata)
  (lo hi : date) (picked : list date) :
  metadata_reply w = Answer meta ->
  snd (metadata_date lib (min_date meta) "min_date") = Done lo ->
  snd (metadata_date lib (max_date meta) "max_date") = Done hi ->
  locations_of meta (level_of w meta) <> [] ->
  date_input w = Some picked ->
  List.length picked <> 2%nat ->
  snd (run lib w) = Raised (UnpackError (List.length picked))
  /\ requests (fst (run lib w)) = [((api_base_of w ++ "/metadata")%string, [])]
  /\ no_content (fst (run lib w)) = true.
Proof.
  intros Hm Hlo Hhi Hne Hd Hlen.
  rewrite (run_after_metadata lib w meta lo hi Hm Hlo Hhi), bind_done.
  assert (Hs : snd (sidebar_filters w meta lo hi)
               = Raised (UnpackError (List.length picked))).
  { unfold sidebar_filters. cbv zeta. fold (level_of w meta).
    destruct (locations_of meta (level_of w meta)) as [|l0 ls] eqn:El;
      [congruence|].
    destruct (default_loc_some (l0 :: ls) Hne) as [d [Hdef _]].
    rewrite Hdef, Hd. cbn [or_default].
    destruct picked as [|a [|b [|c rest]]]; try reflexivity.
    now contradiction Hlen. }
  rewrite (surjective_pairing (sidebar_filters w meta lo hi)), Hs, bind_raised.
  cbn [fst snd]. split; [reflexivity|]. split.
  - now rewrite requests_app, requests_preamble, sidebar_requests.
  - now rewrite no_content_app, no_content_preamble, sidebar_no_content.
Qed.

Lemma range_unpack_error_witness :
  snd (run reference_library
         (world_of (Answer sample_metadata) (Some [mkdate 2022 5 1])
            (Failure "unused") (Failure "unused")))
  = Raised (UnpackError 1).
Proof.
  refine (proj1 (range_unpack_error reference_library
                   (world_of (Answer sample_metadata) (Some [mkdate 2022 5 1])
                      (Failure "unused") (Failure "unused"))
                   sample_metadata (mkdate 2020 1 1) (mkdate 2023 1 1)
                   [mkdate 2022 5 1] _ _ _ _ _ _));
    try reflexivity; discriminate.
Defined.

(** * Further properties: the requests of a pass *)

Lemma dashboard_summary_failure (lib : library) (w : world) (api_base : string)
  (timeout : Z) (f : filters) (msg : string) :
  summary_reply w = Failure msg ->
  dashboard lib w api_base timeout f
  = ([Ui Main (Spinner "Loading from API...");
      summary_request api_base timeout f], Raised (RequestFailed msg)).
Proof.
  intros H. unfold dashboard, fetch_data, fetch_summary, api_get.
  rewrite H. reflexivity.
Qed.

Lemma dashboard_cases_failure (lib : library) (w : world) (api_base : string)
  (timeout : Z) (f : filters) (s : summary) (msg : string) :
  summary_reply w = Answer s ->
  cases_reply w = Failure msg ->
  dashboard lib w api_base timeout f
  = ([Ui Main (Spinner "Loading from API...");
      summary_request api_base timeout f;
      cases_request api_base timeout f], Raised (RequestFailed msg)).
Proof.
  intros Hs Hc. unfold dashboard, fetch_data, fetch_summary, fetch_cases, api_get.
  rewrite Hs, Hc. reflexivity.
Qed.

(** A failed summary or cases request is not caught: the pass ends with the
    exception of [api_get], after the spinner and before any content; when the
    summary request fails the cases request is not made (lines 127-129). *)
Theorem fetch_failure_propagates (lib : library) (w : world) (meta : metadata)
  (lo hi : date) (f : filters) :
  metadata_reply w = Answer meta ->
  snd (metadata_date lib (min_date meta) "min_date") = Done lo ->
  snd (metadata_date lib (max_date meta) "max_date") = Done hi ->
  snd (sidebar_filters w meta lo hi) = Done f ->
  (forall msg, summary_reply w = Failure msg ->
     snd (run lib w) = Raised (RequestFailed msg)
     /\ requests (fst (run lib w))
        = ((api_base_of w ++ "/metadata")%string, [])
          :: requests [summary_request (api_base_of w) (timeout_of w) f]
     /\ no_content (fst (run lib w)) = true)
  /\ (forall s msg, summary_reply w = Answer s -> cases_reply w = Failure msg ->
        snd (run lib w) = Raised (RequestFailed msg)
        /\ requests (fst (run lib w))
           = ((api_base_of w ++ "/metadata")%string, [])
             :: requests [summary_request (api_base_of w) (timeout_of w) f;
                          cases_request (api_base_of w) (timeout_of w) f]
        /\ no_content (fst (run lib w)) = true).
Proof.
  intros Hm Hlo Hhi Hf.
  rewrite (run_through_filters lib w meta lo hi f Hm Hlo Hhi Hf).
  cbn [fst snd]. split.
  - intros msg Hs. rewrite (dashboard_summary_failure lib w _ _ f msg Hs).
    cbn [fst snd]. split; [reflexivity|]. split.
    + now rewrite !requests_app, requests_preamble, sidebar_requests.
    + now rewrite !no_content_app, no_content_preamble, sidebar_no_content.
  - intros s msg Hs Hc.
    rewrite (dashboard_cases_failure lib w _ _ f s msg Hs Hc).
    cbn [fst snd]. split; [reflexivity|]. split.
    + now rewrite !requests_app, requests_preamble, sidebar_requests.
    + now rewrite !no_content_app, no_content_preamble, sidebar_no_content.
Qed.

Lemma fetch_failure_propagates_witness :
  snd (run reference_library
         (world_of (Answer sample_metadata) None
            (Failure "504 Gateway Timeout") (Failure "unused")))
  = Raised (RequestFailed "504 Gateway Timeout").
Proof.
  refine (proj1 (proj1 (fetch_failure_propagates reference_library
                   (world_of (Answer sample_metadata) None
                      (Failure "504 Gateway Timeout") (Failure "unused"))
                   sample_metadata (mkdate 2020 1 1) (mkdate 2023 1 1)
                   {| level := Some "Country"; location := Some "Indonesia";
                      start_date := mkdate 2020 1 1;
                      end_date := mkdate 2023 1 1 |} _ _ _ _)
                 "504 Gateway Timeout" _));
    reflexivity.
Defined.

(** Whatever the replies and the user's input, a pass makes at most three
    requests, each at most once and in this order: metadata, summary, cases;
    the summary and the cases request carry the same level, location and
    dates. *)
Theorem request_order (lib : library) (w : world) :
  let m := ((api_base_of w ++ "/metadata")%string, []) in
  requests (fst (run lib w)) = [m]
  \/ exists f,
       requests (fst (run lib w))
       = m :: requests [summary_request (api_base_of w) (timeout_of w) f]
       \/ requests (fst (run lib w))
          = m :: requests [summary_request (api_base_of w) (timeout_of w) f;
                           cases_request (api_base_of w) (timeout_of w) f].
Proof.
  cbv zeta. destruct (run_requests lib w) as (rest & Hreq & [->|[f ->]]).
  - now left.
  - right. exists f. rewrite Hreq, dashboard_requests.
    destruct (summary_reply w); [now right | now left].
Qed.
